(** * The RISC-V full-system board and its device tree

    A shallow embedding of [src/python/gem5/components/boards/riscv_board.py]:
    the constructor of [RiscvBoard], [set_workload] and
    [generate_device_tree].  The flattened-device-tree helper classes the
    board imports from [m5.util.fdthelper] are embedded in [Module Fdt]. *)

From Stdlib Require Import ZArith NArith String Ascii List Lia.
From Stdlib Require Import DecimalString HexadecimalString DecimalN DecimalPos.
From stdpp Require Import base gmap strings list.

Open Scope Z_scope.

(** ** Exceptions and fallible computations *)

(** The exceptions a build can end in.  [EnvironmentError] is raised by the
    board's constructor; the other three are the error kinds of the
    device-tree helper. [OtherError] stands for whatever the collaborators
    outside this file raise. *)
Inductive exn : Type :=
| ConfigError
| EncodingError
| IOError
| EnvironmentError (msg : string)
| OtherError (msg : string).

Inductive result (A : Type) : Type :=
| Ok (a : A)
| Raise (e : exn).
Arguments Ok {A} a.
Arguments Raise {A} e.

#[global] Instance result_ret : MRet result := fun _ a => Ok a.
#[global] Instance result_bind : MBind result := fun _ _ f c =>
  match c with
  | Ok a => f a
  | Raise e => Raise e
  end.

Definition is_ok {A} (r : result A) : bool :=
  match r with Ok _ => true | Raise _ => false end.

(** ** Number formatting: Python's [%x] and [{i}] *)

Definition hex_of_N (n : N) : string :=
  HexadecimalString.NilZero.string_of_uint (N.to_hex_uint n).

Definition dec_of_N (n : N) : string :=
  DecimalString.NilZero.string_of_uint (N.to_uint n).

(** ["%x" % v] prints a minus sign followed by the magnitude for a
    negative integer. *)
Definition format_hex (v : Z) : string :=
  if v <? 0 then "-" +:+ hex_of_N (Z.to_N (- v)) else hex_of_N (Z.to_N v).

Definition format_dec (i : nat) : string := dec_of_N (N.of_nat i).

(** ** The device-tree helper *)

Module Fdt.

(** *** Properties *)

Inductive PropValue : Type :=
| Words (ws : list Z)
| Strings (ss : list string)
| Bytes (bs : list Z)
| Flag.

Record FdtProp : Type := mkProp {
  prop_name : string;
  prop_value : PropValue
}.

(** Modelled from the spec: the property constructors of the helper
    module [m5.util.fdthelper], which is outside [riscv_board.py].  A property is a name with one of the four
    value kinds; a scalar given where a list is expected stands for the
    one-element list. *)
Definition FdtProperty (name : string) : FdtProp := mkProp name Flag.
Definition FdtPropertyWords (name : string) (ws : list Z) : FdtProp :=
  mkProp name (Words ws).
Definition FdtPropertyStrings (name : string) (ss : list string) : FdtProp :=
  mkProp name (Strings ss).

(** *** Nodes *)

#[warnings="-register-all"]
Inductive FdtNode : Type := mkNode {
  node_name : string;
  properties : list FdtProp;
  children : list FdtNode;
  node_phandle : option Z
}.

(** Modelled from the spec: the node operations of the helper module
    [m5.util.fdthelper]: a new node has no property and no child; appending keeps
    insertion order. *)
Definition new_node (name : string) : FdtNode := mkNode name [] [] None.

Definition append (p : FdtProp) (n : FdtNode) : FdtNode :=
  mkNode (node_name n) (properties n ++ [p]) (children n) (node_phandle n).

Definition append_child (c : FdtNode) (n : FdtNode) : FdtNode :=
  mkNode (node_name n) (properties n) (children n ++ [c]) (node_phandle n).

Definition appendCompatible (compatible : list string) (n : FdtNode) : FdtNode :=
  append (FdtPropertyStrings "compatible" compatible) n.

Definition set_phandle (h : Z) (n : FdtNode) : FdtNode :=
  mkNode (node_name n) (properties n) (children n) (Some h).

Definition find_prop (name : string) (n : FdtNode) : option PropValue :=
  prop_value <$> List.find (fun p => String.eqb (prop_name p) name) (properties n).

(** *** Cell state *)

Record CellState : Type := mkState {
  addr_cells : nat;
  size_cells : nat;
  cpu_cells : nat;
  interrupt_cells : nat;
  phandle_table : gmap string Z
}.

(** Modelled from the spec: the constructor of the cell state, from
    [m5.util.fdthelper].  Every instance starts with its own empty handle table. *)
Definition FdtState (addr size cpu interrupt : nat) : CellState :=
  mkState addr size cpu interrupt ∅.

(** Modelled from the spec: handle allocation of the cell state, from
    [m5.util.fdthelper].  A handle is allocated on the first request for a key, starting
    at 1 and incrementing; later requests for the key return it again. *)
Definition phandle (st : CellState) (key : string) : Z * CellState :=
  match phandle_table st !! key with
  | Some h => (h, st)
  | None =>
      let h := Z.of_nat (size (phandle_table st)) + 1 in
      (h, mkState (addr_cells st) (size_cells st) (cpu_cells st)
            (interrupt_cells st) (<[key := h]> (phandle_table st)))
  end.

(** A run of requests on one instance, the handles in request order. *)
Fixpoint phandle_seq (keys : list string) (st : CellState) : list Z * CellState :=
  match keys with
  | [] => ([], st)
  | k :: ks =>
      let '(h, st1) := phandle st k in
      let '(hs, st2) := phandle_seq ks st1 in
      (h :: hs, st2)
  end.

(** Python's [int.bit_length] on a non-negative integer. *)
Definition bit_length (v : Z) : Z :=
  if v =? 0 then 0 else Z.log2 (Z.abs v) + 1.

(** Modelled from the spec: the cell encoder of the cell state, from
    [m5.util.fdthelper].  It fails with [EncodingError] when the value requires more bits
    than [cells * 32]; otherwise it returns [cells] words of 32 bits, the
    most significant first. *)
Definition int_to_cells (value : Z) (cells : nat) : result (list Z) :=
  if 32 * Z.of_nat cells <? bit_length value then Raise EncodingError
  else Ok (map (fun x : nat => Z.land (Z.shiftr value (32 * Z.of_nat x)) 0xFFFFFFFF)
             (rev (seq 0 cells))).

Definition addrCells (st : CellState) (addr : Z) : result (list Z) :=
  int_to_cells addr (addr_cells st).
Definition sizeCells (st : CellState) (sz : Z) : result (list Z) :=
  int_to_cells sz (size_cells st).
Definition CPUAddrCells (st : CellState) (addr : Z) : result (list Z) :=
  int_to_cells addr (cpu_cells st).

Definition addrCellsProperty (st : CellState) : FdtProp :=
  FdtPropertyWords "#address-cells" [Z.of_nat (addr_cells st)].
Definition sizeCellsProperty (st : CellState) : FdtProp :=
  FdtPropertyWords "#size-cells" [Z.of_nat (size_cells st)].
Definition interruptCellsProperty (st : CellState) : FdtProp :=
  FdtPropertyWords "#interrupt-cells" [Z.of_nat (interrupt_cells st)].

End Fdt.
Import Fdt.

(** ** The board's objects *)

Record AddrRange : Type := mkRange {
  range_start : Z;
  range_size : Z
}.

Inductive Port : Type :=
| CacheMemSidePort
| IOBusMemSidePorts
| IOBusCpuSidePorts.

(** A memory-mapped device: its base address, its size and the port its
    [pio] is bound to, if any. *)
Record PioDevice : Type := mkPio {
  pio_addr : Z;
  pio_size : Z;
  pio : option Port
}.

Inductive IntPin : Type := RtcIntPin.

Record RiscvRTC : Type := mkRTC { rtc_frequency : string }.

(** The platform object: CLINT, PLIC and UART with the attributes the board
    reads or writes.  [plic_ref] is the key under which the PLIC object is
    known to the handle table. *)
Record Platform : Type := mkPlatform {
  clint : PioDevice;
  clint_num_threads : Z;
  clint_int_pin : option IntPin;
  plic : PioDevice;
  plic_n_src : Z;
  plic_n_contexts : Z;
  plic_ref : string;
  uart : PioDevice;
  uart_int_id : Z;
  rtc : option RiscvRTC
}.

Record CowDiskImage : Type := mkCow {
  cow_read_only : bool;
  child_read_only : bool;
  child_image_file : option string
}.

Record RiscvMmioVirtIO : Type := mkDisk {
  disk_dev : PioDevice;
  interrupt_id : Z;
  vio_image : option CowDiskImage
}.

Record RiscvLinux : Type := mkWorkload {
  object_file : option string;
  command_line : option string;
  dtb_addr : option Z;
  dtb_filename : option string
}.

Record Core : Type := mkCore { pma_checker : option (list AddrRange) }.

Record CacheHierarchy : Type := mkCache { is_ruby : bool }.

Record Bridge : Type := mkBridge {
  bridge_delay : string;
  bridge_mem_side_port : Port;
  bridge_cpu_side_port : Port;
  bridge_ranges : list AddrRange
}.

(** The device lists of the board hold references to the device objects, not
    copies: a write through a list entry is a write to the device. *)
Inductive DevRef : Type := DevClint | DevPlic | DevUart | DevDisk.

(** What the superclass constructor leaves in the object. *)
Record SimpleBoard : Type := mkSimpleBoard {
  sb_clk_frequency : Z;
  sb_cores : list Core;
  sb_mem_size : Z;
  sb_cache_hierarchy : CacheHierarchy;
  sb_mem_ranges : list AddrRange
}.

(** The incoherent I/O crossbar; the board uses its two port groups only. *)
Inductive IOXBar : Type := mkIOXBar.

Record RiscvBoard : Type := mkBoard {
  clk_frequency : Z;
  cores : list Core;
  mem_size : Z;
  cache_hierarchy : CacheHierarchy;
  mem_ranges : list AddrRange;
  workload : RiscvLinux;
  platform : Platform;
  iobus : IOXBar;
  disk : RiscvMmioVirtIO;
  on_chip_devices : list DevRef;
  off_chip_devices : list DevRef;
  bridge : option Bridge
}.

Record AbstractResource : Type := mkResource { get_local_path : string }.

Inductive ISA : Type := X86 | ARM | RISCV | MIPS | POWER | SPARC | NULL.

(** ** The output directory *)

Inductive FileData : Type :=
| TextFile (s : string)
| BinaryFile (bs : list Z).

Record FileSystem : Type := mkFS {
  files : gmap string FileData;
  writable : string -> bool
}.

(** Modelled from the spec: writing one output file, as the file writers
    of [m5.util.fdthelper] do.  A write either stores the whole content or
    fails with [IOError] and stores nothing. *)
Definition write_file (path : string) (data : FileData) (fs : FileSystem)
  : FileSystem * result unit :=
  if writable fs path
  then (mkFS (<[path := data]> (files fs)) (writable fs), Ok tt)
  else (fs, Raise IOError).

Definition ends_with_slash (s : string) : bool :=
  match rev (list_ascii_of_string s) with
  | c :: _ => Ascii.eqb c "/"%char
  | [] => false
  end.

(** [os.path.join dir name] for a relative [name]. *)
Definition path_join (dir name : string) : string :=
  if String.eqb dir "" then name
  else if ends_with_slash dir then dir +:+ name
  else dir +:+ "/" +:+ name.

(** ** Device-tree generation *)

Definition int_state_key (i : nat) : string :=
  "cpu@" +:+ format_dec i +:+ ".int_state".

Definition cpu_key (i : nat) : string := "cpu@" +:+ format_dec i.

(** Modelled from the spec: [generateBasicPioDeviceNode] of the device
    classes in [m5.objects]: a node named [<name>@<hex-addr>] whose [reg]
    property encodes the base address and the size in the given scope. *)
Definition generateBasicPioDeviceNode (state : CellState) (name : string)
    (addr size : Z) : result FdtNode :=
  a ← addrCells state addr;
  s ← sizeCells state size;
  mret (append (FdtPropertyWords "reg" (a ++ s))
          (new_node (name +:+ "@" +:+ format_hex addr))).

(** Lines 246-256: one [memory@<start>] node per memory range. *)
Definition memory_node (state : CellState) (mem_range : AddrRange) : result FdtNode :=
  let node := new_node ("memory@" +:+ format_hex (range_start mem_range)) in
  let node := append (FdtPropertyStrings "device_type" ["memory"]) node in
  a ← addrCells state (range_start mem_range);
  s ← sizeCells state (range_size mem_range);
  let node := append (FdtPropertyWords "reg" (a ++ s)) node in
  mret node.

Fixpoint memory_loop (state : CellState) (ranges : list AddrRange)
    (root : FdtNode) : result FdtNode :=
  match ranges with
  | [] => mret root
  | mem_range :: rest =>
      node ← memory_node state mem_range;
      memory_loop state rest (append_child node root)
  end.

(** Lines 306-312 and 333-339: the two loops that fill [int_extended], for
    the CLINT with the contexts 0x3 and 0x7 on [soc_state], for the PLIC
    with 0xB and 0x9 on [state].  [i] is the index [enumerate] has reached. *)
Fixpoint int_extended_loop (ctx_a ctx_b : Z) (i : nat) (cs : list Core)
    (st : CellState) (int_extended : list Z) : list Z * CellState :=
  match cs with
  | [] => (int_extended, st)
  | _ :: rest =>
      let '(ph, st) := phandle st (int_state_key i) in
      int_extended_loop ctx_a ctx_b (S i) rest st
        (int_extended ++ [ph; ctx_a; ph; ctx_b])
  end.

Section Builder.

(** The handle [appendPhandle] gives a node for a key.  The call passes
    the key only, none of the builder's cell states, so the handle tables
    of [state] and [soc_state] are not touched by it. *)
Variable node_handle : string -> Z.

(** The two serializers of the finished tree. *)
Variable to_dts : FdtNode -> result string.
Variable to_dtb : FdtNode -> result (list Z).

Definition appendPhandle (key : string) (n : FdtNode) : FdtNode :=
  set_phandle (node_handle key) n.

(** Lines 267-290: the body of the loop over the cores. *)
Definition cpu_node (freq : Z) (i : nat) (state : CellState)
  : result (FdtNode * CellState) :=
  let node := new_node (cpu_key i) in
  let node := append (FdtPropertyStrings "device_type" ["cpu"]) node in
  reg ← CPUAddrCells state (Z.of_nat i);
  let node := append (FdtPropertyWords "reg" reg) node in
  let node := append (FdtPropertyStrings "mmu-type" ["riscv,sv48"]) node in
  let node := append (FdtPropertyStrings "status" ["okay"]) node in
  let node := append (FdtPropertyStrings "riscv,isa" ["rv64imafdc"]) node in
  let node := append (FdtPropertyWords "clock-frequency" [freq]) node in
  let node := appendCompatible ["riscv"] node in
  let '(_, state) := phandle state (int_state_key i) in
  let node := appendPhandle (cpu_key i) node in
  let int_node := new_node "interrupt-controller" in
  let int_state := FdtState 0 0 0 1 in
  let '(int_phandle, int_state) := phandle int_state (int_state_key i) in
  let int_node := append (interruptCellsProperty int_state) int_node in
  let int_node := append (FdtProperty "interrupt-controller") int_node in
  let int_node := appendCompatible ["riscv,cpu-intc"] int_node in
  let int_node := append (FdtPropertyWords "phandle" [int_phandle]) int_node in
  let node := append_child int_node node in
  mret (node, state).

Fixpoint cpu_loop (freq : Z) (i : nat) (cs : list Core) (state : CellState)
    (cpus_node : FdtNode) : result (FdtNode * CellState) :=
  match cs with
  | [] => mret (cpus_node, state)
  | _ :: rest =>
      '(node, state) ← cpu_node freq i state;
      cpu_loop freq (S i) rest state (append_child node cpus_node)
  end.

(** Lines 301-317. *)
Definition clint_node_of (b : RiscvBoard) (soc_state : CellState)
  : result (FdtNode * CellState) :=
  let clint := clint (platform b) in
  clint_node ← generateBasicPioDeviceNode soc_state "clint"
                  (pio_addr clint) (pio_size clint);
  let '(int_extended, soc_state) :=
    int_extended_loop 0x3 0x7 0 (cores b) soc_state [] in
  let clint_node :=
    append (FdtPropertyWords "interrupts-extended" int_extended) clint_node in
  let clint_node := appendCompatible ["riscv,clint0"] clint_node in
  mret (clint_node, soc_state).

(** Lines 319-345. *)
Definition plic_node_of (b : RiscvBoard) (state soc_state : CellState)
  : result (FdtNode * CellState) :=
  let plic := plic (platform b) in
  plic_node ← generateBasicPioDeviceNode soc_state "plic"
                 (pio_addr plic) (pio_size plic);
  let int_state := FdtState 0 0 0 1 in
  let plic_node := append (addrCellsProperty int_state) plic_node in
  let plic_node := append (interruptCellsProperty int_state) plic_node in
  let '(ph, int_state) := phandle int_state (plic_ref (platform b)) in
  let plic_node := append (FdtPropertyWords "phandle" [ph]) plic_node in
  let plic_node :=
    append (FdtPropertyWords "riscv,ndev" [plic_n_src (platform b) - 1]) plic_node in
  let '(int_extended, state) :=
    int_extended_loop 0xB 0x9 0 (cores b) state [] in
  let plic_node :=
    append (FdtPropertyWords "interrupts-extended" int_extended) plic_node in
  let plic_node := append (FdtProperty "interrupt-controller") plic_node in
  let plic_node := appendCompatible ["riscv,plic0"] plic_node in
  mret (plic_node, state).

(** Lines 347-360. *)
Definition uart_node_of (b : RiscvBoard) (soc_state : CellState)
  : result (FdtNode * CellState) :=
  let uart := uart (platform b) in
  uart_node ← generateBasicPioDeviceNode soc_state "uart"
                 (pio_addr uart) (pio_size uart);
  let uart_node :=
    append (FdtPropertyWords "interrupts" [uart_int_id (platform b)]) uart_node in
  let uart_node := append (FdtPropertyWords "clock-frequency" [0x384000]) uart_node in
  let '(ph, soc_state) := phandle soc_state (plic_ref (platform b)) in
  let uart_node := append (FdtPropertyWords "interrupt-parent" [ph]) uart_node in
  let uart_node := appendCompatible ["ns8250"] uart_node in
  mret (uart_node, soc_state).

(** Lines 362-372. *)
Definition disk_node_of (b : RiscvBoard) (soc_state : CellState)
  : result (FdtNode * CellState) :=
  let d := disk b in
  disk_node ← generateBasicPioDeviceNode soc_state "virtio_mmio"
                 (pio_addr (disk_dev d)) (pio_size (disk_dev d));
  let disk_node := append (FdtPropertyWords "interrupts" [interrupt_id d]) disk_node in
  let '(ph, soc_state) := phandle soc_state (plic_ref (platform b)) in
  let disk_node := append (FdtPropertyWords "interrupt-parent" [ph]) disk_node in
  let disk_node := appendCompatible ["virtio,mmio"] disk_node in
  mret (disk_node, soc_state).

(** Lines 294-372: the [soc] node with its four device nodes. *)
Definition soc_node_of (b : RiscvBoard) (state : CellState)
  : result (FdtNode * CellState) :=
  let soc_node := new_node "soc" in
  let soc_state := FdtState 2 2 0 0 in
  let soc_node := append (addrCellsProperty soc_state) soc_node in
  let soc_node := append (sizeCellsProperty soc_state) soc_node in
  let soc_node := append (FdtProperty "ranges") soc_node in
  let soc_node := appendCompatible ["simple-bus"] soc_node in
  '(clint_node, soc_state) ← clint_node_of b soc_state;
  let soc_node := append_child clint_node soc_node in
  '(plic_node, state) ← plic_node_of b state soc_state;
  let soc_node := append_child plic_node soc_node in
  '(uart_node, soc_state) ← uart_node_of b soc_state;
  let soc_node := append_child uart_node soc_node in
  '(disk_node, soc_state) ← disk_node_of b soc_state;
  let soc_node := append_child disk_node soc_node in
  mret (soc_node, state).

(** Lines 258-292: the [cpus] node. *)
Definition cpus_node_of (b : RiscvBoard) (state : CellState)
  : result (FdtNode * CellState) :=
  let cpus_node := new_node "cpus" in
  let cpus_state := FdtState 1 0 0 0 in
  let cpus_node := append (addrCellsProperty cpus_state) cpus_node in
  let cpus_node := append (sizeCellsProperty cpus_state) cpus_node in
  let cpus_node :=
    append (FdtPropertyWords "timebase-frequency" [10000000]) cpus_node in
  cpu_loop (clk_frequency b) 0 (cores b) state cpus_node.

(** Lines 240-374: the tree, before anything is written. *)
Definition build_device_tree (b : RiscvBoard) : result FdtNode :=
  let state := FdtState 2 2 1 0 in
  let root := new_node "/" in
  let root := append (addrCellsProperty state) root in
  let root := append (sizeCellsProperty state) root in
  let root := appendCompatible ["riscv-virtio"] root in
  root ← memory_loop state (mem_ranges b) root;
  '(cpus_node, state) ← cpus_node_of b state;
  let root := append_child cpus_node root in
  '(soc_node, state) ← soc_node_of b state;
  let root := append_child soc_node root in
  mret root.

(** Modelled from the spec: the two file writers of the [Fdt] class of
    [m5.util.fdthelper]: serialize the tree, then write the file. *)
Definition writeDtsFile (root : FdtNode) (filename : string) (fs : FileSystem)
  : FileSystem * result unit :=
  match to_dts root with
  | Ok text => write_file filename (TextFile text) fs
  | Raise e => (fs, Raise e)
  end.

Definition writeDtbFile (root : FdtNode) (filename : string) (fs : FileSystem)
  : FileSystem * result unit :=
  match to_dtb root with
  | Ok blob => write_file filename (BinaryFile blob) fs
  | Raise e => (fs, Raise e)
  end.

(** [generate_device_tree], lines 232-379.  An exception leaves the output
    directory as it is at the point of the raise. *)
Definition generate_device_tree (b : RiscvBoard) (outdir : string)
    (fs : FileSystem) : FileSystem * result unit :=
  match build_device_tree b with
  | Raise e => (fs, Raise e)
  | Ok root =>
      match writeDtsFile root (path_join outdir "device.dts") fs with
      | (fs, Raise e) => (fs, Raise e)
      | (fs, Ok _) => writeDtbFile root (path_join outdir "device.dtb") fs
      end
  end.

End Builder.

(** ** The board's methods *)

Definition get_num_cores (b : SimpleBoard) : Z := Z.of_nat (length (sb_cores b)).

Definition set_pio (p : Port) (d : PioDevice) : PioDevice :=
  mkPio (pio_addr d) (pio_size d) (Some p).

Definition get_device (b : RiscvBoard) (r : DevRef) : PioDevice :=
  match r with
  | DevClint => clint (platform b)
  | DevPlic => plic (platform b)
  | DevUart => uart (platform b)
  | DevDisk => disk_dev (disk b)
  end.

Definition with_platform (pf : Platform) (b : RiscvBoard) : RiscvBoard :=
  mkBoard (clk_frequency b) (cores b) (mem_size b) (cache_hierarchy b)
    (mem_ranges b) (workload b) pf (iobus b) (disk b) (on_chip_devices b)
    (off_chip_devices b) (bridge b).

Definition with_disk (d : RiscvMmioVirtIO) (b : RiscvBoard) : RiscvBoard :=
  mkBoard (clk_frequency b) (cores b) (mem_size b) (cache_hierarchy b)
    (mem_ranges b) (workload b) (platform b) (iobus b) d (on_chip_devices b)
    (off_chip_devices b) (bridge b).

Definition with_workload (w : RiscvLinux) (b : RiscvBoard) : RiscvBoard :=
  mkBoard (clk_frequency b) (cores b) (mem_size b) (cache_hierarchy b)
    (mem_ranges b) w (platform b) (iobus b) (disk b) (on_chip_devices b)
    (off_chip_devices b) (bridge b).

Definition with_bridge (br : Bridge) (b : RiscvBoard) : RiscvBoard :=
  mkBoard (clk_frequency b) (cores b) (mem_size b) (cache_hierarchy b)
    (mem_ranges b) (workload b) (platform b) (iobus b) (disk b) (on_chip_devices b)
    (off_chip_devices b) (Some br).

Definition with_cores (cs : list Core) (b : RiscvBoard) : RiscvBoard :=
  mkBoard (clk_frequency b) cs (mem_size b) (cache_hierarchy b)
    (mem_ranges b) (workload b) (platform b) (iobus b) (disk b) (on_chip_devices b)
    (off_chip_devices b) (bridge b).

Definition with_mem_ranges (rs : list AddrRange) (b : RiscvBoard) : RiscvBoard :=
  mkBoard (clk_frequency b) (cores b) (mem_size b) (cache_hierarchy b)
    rs (workload b) (platform b) (iobus b) (disk b) (on_chip_devices b)
    (off_chip_devices b) (bridge b).

(** [device.pio = port] through a reference of a device list. *)
Definition connect_pio (p : Port) (r : DevRef) (b : RiscvBoard) : RiscvBoard :=
  let pf := platform b in
  match r with
  | DevClint =>
      with_platform (mkPlatform (set_pio p (clint pf)) (clint_num_threads pf)
        (clint_int_pin pf) (plic pf) (plic_n_src pf) (plic_n_contexts pf)
        (plic_ref pf) (uart pf) (uart_int_id pf) (rtc pf)) b
  | DevPlic =>
      with_platform (mkPlatform (clint pf) (clint_num_threads pf)
        (clint_int_pin pf) (set_pio p (plic pf)) (plic_n_src pf)
        (plic_n_contexts pf) (plic_ref pf) (uart pf) (uart_int_id pf) (rtc pf)) b
  | DevUart =>
      with_platform (mkPlatform (clint pf) (clint_num_threads pf)
        (clint_int_pin pf) (plic pf) (plic_n_src pf) (plic_n_contexts pf)
        (plic_ref pf) (set_pio p (uart pf)) (uart_int_id pf) (rtc pf)) b
  | DevDisk =>
      with_disk (mkDisk (set_pio p (disk_dev (disk b))) (interrupt_id (disk b))
        (vio_image (disk b))) b
  end.

Definition device_range (b : RiscvBoard) (r : DevRef) : AddrRange :=
  mkRange (pio_addr (get_device b r)) (pio_size (get_device b r)).

(** [_setup_io_devices], lines 125-140. *)
Definition _setup_io_devices (b : RiscvBoard) : RiscvBoard :=
  let b := fold_left (fun b r => connect_pio IOBusMemSidePorts r b)
             (off_chip_devices b) b in
  let b := fold_left (fun b r => connect_pio CacheMemSidePort r b)
             (on_chip_devices b) b in
  with_bridge (mkBridge "10ns" IOBusCpuSidePorts CacheMemSidePort
                 (map (device_range b) (off_chip_devices b))) b.

(** [_setup_pma], lines 142-154. *)
Definition _setup_pma (b : RiscvBoard) : RiscvBoard :=
  let uncacheable_range :=
    map (device_range b) (on_chip_devices b ++ off_chip_devices b) in
  with_cores (map (fun _ => mkCore (Some uncacheable_range)) (cores b)) b.

(** Lines 156-168. *)
Definition has_io_bus (b : RiscvBoard) : bool := true.
Definition get_io_bus (b : RiscvBoard) : IOXBar := iobus b.
Definition has_coherent_io (b : RiscvBoard) : bool := true.
Definition get_mem_side_coherent_io_port (b : RiscvBoard) : Port := IOBusMemSidePorts.

(** [setup_memory_ranges], lines 170-175. *)
Definition setup_memory_ranges (b : RiscvBoard) : RiscvBoard :=
  with_mem_ranges [mkRange 0x80000000 (mem_size b)] b.

Section Workload.

Variable node_handle : string -> Z.
Variable to_dts : FdtNode -> result string.
Variable to_dtb : FdtNode -> result (list Z).

(** [set_workload], lines 177-230.  [outdir] is [m5.options.outdir].  The
    board and the output directory are returned as the call leaves them,
    also when it raises. *)
Definition set_workload (bootloader disk_image : AbstractResource)
    (command : option string) (outdir : string)
    (b : RiscvBoard) (fs : FileSystem)
  : RiscvBoard * FileSystem * result unit :=
  let w := workload b in
  let b := with_workload (mkWorkload (Some (get_local_path bootloader))
                            (command_line w) (dtb_addr w) (dtb_filename w)) b in
  let image := mkCow false true None in
  let image := mkCow (cow_read_only image) (child_read_only image)
                 (Some (get_local_path disk_image)) in
  let b := with_disk (mkDisk (disk_dev (disk b)) (interrupt_id (disk b))
                        (Some image)) b in
  let w := workload b in
  let b := with_workload (mkWorkload (object_file w)
                            (Some "console=ttyS0 root=/dev/vda ro")
                            (dtb_addr w) (dtb_filename w)) b in
  let b := _setup_io_devices b in
  let b := _setup_pma b in
  let w := workload b in
  let b := with_workload (mkWorkload (object_file w) (command_line w)
                            (Some 0x87E00000) (dtb_filename w)) b in
  match generate_device_tree node_handle to_dts to_dtb b outdir fs with
  | (fs, Raise e) => (b, fs, Raise e)
  | (fs, Ok _) =>
      let w := workload b in
      let b := with_workload (mkWorkload (object_file w) (command_line w)
                                (dtb_addr w)
                                (Some (path_join outdir "device.dtb"))) b in
      (b, fs, Ok tt)
  end.

End Workload.

Section Constructor.

(** The collaborators of the constructor that live outside this file: the
    superclass constructor, the ISA requirement, the default platform object
    and its [attachPlic]. *)
Variable SimpleBoard_init :
  string -> list Core -> Z -> CacheHierarchy -> result SimpleBoard.
Variable requires : ISA -> result unit.
Variable HiFive : Platform.
Variable attachPlic : Platform -> Platform.

(** [RiscvBoard.__init__], lines 81-123. *)
Definition RiscvBoard_init (clk_freq : string) (processor : list Core)
    (memory : Z) (cache : CacheHierarchy) : result RiscvBoard :=
  self ← SimpleBoard_init clk_freq processor memory cache;
  _ ← requires RISCV;
  if is_ruby cache
  then Raise (EnvironmentError "RiscvBoard is not compatible with Ruby")
  else
    let workload := mkWorkload None None None None in
    let pf := HiFive in
    let pf := mkPlatform (clint pf) (clint_num_threads pf) (clint_int_pin pf)
                (plic pf) (plic_n_src pf) (get_num_cores self * 2) (plic_ref pf)
                (uart pf) (uart_int_id pf) (rtc pf) in
    let pf := attachPlic pf in
    let pf := mkPlatform (clint pf) (get_num_cores self) (clint_int_pin pf)
                (plic pf) (plic_n_src pf) (plic_n_contexts pf) (plic_ref pf)
                (uart pf) (uart_int_id pf) (rtc pf) in
    let pf := mkPlatform (clint pf) (clint_num_threads pf) (clint_int_pin pf)
                (plic pf) (plic_n_src pf) (plic_n_contexts pf) (plic_ref pf)
                (uart pf) (uart_int_id pf) (Some (mkRTC "100MHz")) in
    let pf := mkPlatform (clint pf) (clint_num_threads pf) (Some RtcIntPin)
                (plic pf) (plic_n_src pf) (plic_n_contexts pf) (plic_ref pf)
                (uart pf) (uart_int_id pf) (rtc pf) in
    let iobus := mkIOXBar in
    let disk := mkDisk (mkPio 0x10008000 4096 None) 0x8 None in
    mret (mkBoard (sb_clk_frequency self) (sb_cores self) (sb_mem_size self)
            (sb_cache_hierarchy self) (sb_mem_ranges self) workload pf iobus
            disk [DevClint; DevPlic] [DevUart; DevDisk] None).

End Constructor.

(** ** Concrete boards *)

(** A platform with the address map of the HiFive board and 1024 interrupt
    sources. *)
Definition hifive_platform : Platform :=
  mkPlatform (mkPio 0x2000000 0xc000 None) 0 None
    (mkPio 0xc000000 0x4000000 None) 1024 0 "plic"
    (mkPio 0x10000000 0x8 None) 0xa None.

(** Stand-ins for the collaborators of the constructor: a superclass
    constructor that stores its arguments under a 1 GHz clock, and an ISA
    requirement that is met. *)
Definition simple_board_init (clk_freq : string) (processor : list Core)
    (memory : Z) (cache : CacheHierarchy) : result SimpleBoard :=
  Ok (mkSimpleBoard 1000000000 processor memory cache []).

Definition requires_ok (isa : ISA) : result unit := Ok tt.

(** The board with [n] cores and [mem] bytes of memory that the constructor
    followed by [setup_memory_ranges] yields on that platform. *)
Definition scenario_board (n : nat) (mem : Z) : RiscvBoard :=
  mkBoard 1000000000 (replicate n (mkCore None)) mem (mkCache false)
    [mkRange 0x80000000 mem]
    (mkWorkload None None None None)
    (mkPlatform (mkPio 0x2000000 0xc000 None) (Z.of_nat n) (Some RtcIntPin)
       (mkPio 0xc000000 0x4000000 None) 1024 (Z.of_nat n * 2) "plic"
       (mkPio 0x10000000 0x8 None) 0xa (Some (mkRTC "100MHz")))
    mkIOXBar
    (mkDisk (mkPio 0x10008000 4096 None) 0x8 None)
    [DevClint; DevPlic] [DevUart; DevDisk] None.

(** Stand-ins for the node layer and the serializers: every node gets the
    handle 1, the text form is the root's name, the blob is the magic
    number. *)
Definition plain_node_handle (key : string) : Z := 1.
Definition plain_to_dts (root : FdtNode) : result string := Ok (node_name root).
Definition plain_to_dtb (root : FdtNode) : result (list Z) := Ok [0xd0; 0x0d; 0xfe; 0xed].

Definition empty_outdir (w : string -> bool) : FileSystem := mkFS ∅ w.

(** An output directory in which [device.dtb] cannot be written. *)
Definition dtb_readonly (path : string) : bool :=
  negb (String.eqb path "out/device.dtb").

(** ** Vocabulary of the statements *)

(** The (phandle, context) pairs of an [interrupts-extended] word list. *)
Fixpoint word_pairs (ws : list Z) : list (Z * Z) :=
  match ws with
  | a :: b :: rest => (a, b) :: word_pairs rest
  | _ => []
  end.

(** The handle a cell state holds for a key (0 when it holds none; handles
    start at 1). *)
Definition handle_of (st : CellState) (key : string) : Z :=
  default 0 (phandle_table st !! key).

(** The invariant of a handle table: its handles are [1 .. size] and no
    two keys share one. *)
Definition table_ok (t : gmap string Z) : Prop :=
  (forall k h, t !! k = Some h -> 1 <= h <= Z.of_nat (size t)) /\
  (forall k1 k2 h, t !! k1 = Some h -> t !! k2 = Some h -> k1 = k2).

(** A quantity that fits the two cells of the root and soc scopes. *)
Definition fits64 (v : Z) : bool := (0 <=? v) && (v <? 2 ^ 64).

Definition device_fits (d : PioDevice) : bool :=
  fits64 (pio_addr d) && fits64 (pio_size d).

(** The inputs every encoder of the build accepts. *)
Definition board_fits (b : RiscvBoard) : bool :=
  forallb (fun r => fits64 (range_start r) && fits64 (range_size r)) (mem_ranges b)
  && (Z.of_nat (length (cores b)) <=? 2 ^ 32)
  && device_fits (clint (platform b))
  && device_fits (plic (platform b))
  && device_fits (uart (platform b))
  && device_fits (disk_dev (disk b)).

(** The four words of a [reg] property in a scope of two address cells and
    two size cells. *)
Definition reg_words (addr size : Z) : list Z :=
  [ Z.land (Z.shiftr addr 32) 0xFFFFFFFF; Z.land addr 0xFFFFFFFF;
    Z.land (Z.shiftr size 32) 0xFFFFFFFF; Z.land size 0xFFFFFFFF ].

(** The node a memory range contributes to the root. *)
Definition expected_memory_node (r : AddrRange) : FdtNode :=
  mkNode ("memory@" +:+ format_hex (range_start r))
    [ FdtPropertyStrings "device_type" ["memory"];
      FdtPropertyWords "reg" (reg_words (range_start r) (range_size r)) ]
    [] None.

(** The basic node of a device at [addr]. *)
Definition pio_node (name : string) (addr size : Z) : FdtNode :=
  mkNode (name +:+ "@" +:+ format_hex addr)
    [FdtPropertyWords "reg" (reg_words addr size)] [] None.

(** The node of core [i], for the handle [h] the node layer gives it. *)
Definition expected_cpu_node (h : Z) (freq : Z) (i : nat) : FdtNode :=
  mkNode (cpu_key i)
    [ FdtPropertyStrings "device_type" ["cpu"];
      FdtPropertyWords "reg" [Z.land (Z.of_nat i) 0xFFFFFFFF];
      FdtPropertyStrings "mmu-type" ["riscv,sv48"];
      FdtPropertyStrings "status" ["okay"];
      FdtPropertyStrings "riscv,isa" ["rv64imafdc"];
      FdtPropertyWords "clock-frequency" [freq];
      FdtPropertyStrings "compatible" ["riscv"] ]
    [ mkNode "interrupt-controller"
        [ FdtPropertyWords "#interrupt-cells" [1];
          FdtProperty "interrupt-controller";
          FdtPropertyStrings "compatible" ["riscv,cpu-intc"];
          FdtPropertyWords "phandle" [1] ]
        [] None ]
    (Some h).

(** The keys the loops over the cores request, from core [i] on. *)
Definition int_state_keys (i n : nat) : list string :=
  map int_state_key (seq i n).

(** The words of an [interrupts-extended] list for the handles [hs] of the
    cores, two contexts per core. *)
Definition int_extended_words (ctx_a ctx_b : Z) (hs : list Z) : list Z :=
  flat_map (fun h => [h; ctx_a; h; ctx_b]) hs.

(** The soc-scope cell state when the CLINT loop has run, and the
    root-scope cell state when the loop over the cores has run. *)
Definition soc_state_after_clint (b : RiscvBoard) : CellState :=
  (phandle_seq (int_state_keys 0 (length (cores b))) (FdtState 2 2 0 0)).2.

Definition state_after_cpus (b : RiscvBoard) : CellState :=
  (phandle_seq (int_state_keys 0 (length (cores b))) (FdtState 2 2 1 0)).2.

(** The four device nodes of the [soc] node, as the builder leaves them. *)
Definition expected_clint_node (b : RiscvBoard) : FdtNode :=
  let d := clint (platform b) in
  mkNode ("clint" +:+ "@" +:+ format_hex (pio_addr d))
    [ FdtPropertyWords "reg" (reg_words (pio_addr d) (pio_size d));
      FdtPropertyWords "interrupts-extended"
        (int_extended_words 0x3 0x7
           (phandle_seq (int_state_keys 0 (length (cores b))) (FdtState 2 2 0 0)).1);
      FdtPropertyStrings "compatible" ["riscv,clint0"] ]
    [] None.

Definition expected_plic_node (b : RiscvBoard) : FdtNode :=
  let d := plic (platform b) in
  mkNode ("plic" +:+ "@" +:+ format_hex (pio_addr d))
    [ FdtPropertyWords "reg" (reg_words (pio_addr d) (pio_size d));
      FdtPropertyWords "#address-cells" [0];
      FdtPropertyWords "#interrupt-cells" [1];
      FdtPropertyWords "phandle" [1];
      FdtPropertyWords "riscv,ndev" [plic_n_src (platform b) - 1];
      FdtPropertyWords "interrupts-extended"
        (int_extended_words 0xB 0x9
           (phandle_seq (int_state_keys 0 (length (cores b))) (state_after_cpus b)).1);
      FdtProperty "interrupt-controller";
      FdtPropertyStrings "compatible" ["riscv,plic0"] ]
    [] None.

Definition expected_uart_node (b : RiscvBoard) : FdtNode :=
  let d := uart (platform b) in
  mkNode ("uart" +:+ "@" +:+ format_hex (pio_addr d))
    [ FdtPropertyWords "reg" (reg_words (pio_addr d) (pio_size d));
      FdtPropertyWords "interrupts" [uart_int_id (platform b)];
      FdtPropertyWords "clock-frequency" [0x384000];
      FdtPropertyWords "interrupt-parent"
        [(phandle (soc_state_after_clint b) (plic_ref (platform b))).1];
      FdtPropertyStrings "compatible" ["ns8250"] ]
    [] None.

Definition expected_disk_node (b : RiscvBoard) : FdtNode :=
  let d := disk_dev (disk b) in
  mkNode ("virtio_mmio" +:+ "@" +:+ format_hex (pio_addr d))
    [ FdtPropertyWords "reg" (reg_words (pio_addr d) (pio_size d));
      FdtPropertyWords "interrupts" [interrupt_id (disk b)];
      FdtPropertyWords "interrupt-parent"
        [(phandle (phandle (soc_state_after_clint b) (plic_ref (platform b))).2
            (plic_ref (platform b))).1];
      FdtPropertyStrings "compatible" ["virtio,mmio"] ]
    [] None.

Definition expected_cpus_node (node_handle : string -> Z) (b : RiscvBoard)
  : FdtNode :=
  mkNode "cpus"
    [ FdtPropertyWords "#address-cells" [1];
      FdtPropertyWords "#size-cells" [0];
      FdtPropertyWords "timebase-frequency" [10000000] ]
    (map (fun j => expected_cpu_node (node_handle (cpu_key j)) (clk_frequency b) j)
       (seq 0 (length (cores b))))
    None.

Definition soc_properties : list FdtProp :=
  [ FdtPropertyWords "#address-cells" [2];
    FdtPropertyWords "#size-cells" [2];
    FdtProperty "ranges";
    FdtPropertyStrings "compatible" ["simple-bus"] ].

Definition root_properties : list FdtProp :=
  [ FdtPropertyWords "#address-cells" [2];
    FdtPropertyWords "#size-cells" [2];
    FdtPropertyStrings "compatible" ["riscv-virtio"] ].

(** The names of the children of the [soc] node of a tree. *)
Definition soc_children_names (root : FdtNode) : option (list string) :=
  soc ← List.find (fun n => String.eqb (node_name n) "soc") (children root);
  Some (map node_name (children soc)).

Definition dts_path (outdir : string) : string := path_join outdir "device.dts".
Definition dtb_path (outdir : string) : string := path_join outdir "device.dtb".

(** ** Vocabulary of the further properties *)

#[global] Instance DevRef_eq_dec : EqDecision DevRef.
Proof. solve_decision. Defined.

(** What [generate_device_tree] reads of a board: the memory ranges, the
    number of cores, the clock frequency, the base address and size of the
    four devices, and the PLIC, UART and disk attributes it prints. *)
Definition hardware (b : RiscvBoard) :=
  (mem_ranges b, length (cores b), clk_frequency b,
   (pio_addr (clint (platform b)), pio_size (clint (platform b))),
   (pio_addr (plic (platform b)), pio_size (plic (platform b)),
    plic_n_src (platform b), plic_ref (platform b)),
   (pio_addr (uart (platform b)), pio_size (uart (platform b)),
    uart_int_id (platform b)),
   (pio_addr (disk_dev (disk b)), pio_size (disk_dev (disk b)),
    interrupt_id (disk b))).

(** The board as [set_workload] has configured it when it calls
    [generate_device_tree] (lines 205-222). *)
Definition staged_board (bootloader disk_image : AbstractResource)
    (b : RiscvBoard) : RiscvBoard :=
  let w := workload b in
  let b := with_workload (mkWorkload (Some (get_local_path bootloader))
                            (command_line w) (dtb_addr w) (dtb_filename w)) b in
  let b := with_disk (mkDisk (disk_dev (disk b)) (interrupt_id (disk b))
                        (Some (mkCow false true
                                 (Some (get_local_path disk_image))))) b in
  let w := workload b in
  let b := with_workload (mkWorkload (object_file w)
                            (Some "console=ttyS0 root=/dev/vda ro")
                            (dtb_addr w) (dtb_filename w)) b in
  let b := _setup_io_devices b in
  let b := _setup_pma b in
  let w := workload b in
  with_workload (mkWorkload (object_file w) (command_line w)
                   (Some 0x87E00000) (dtb_filename w)) b.

(** The port [_setup_io_devices] leaves a device on: the on-chip loop runs
    last, so a device of both lists ends on the cache port. *)
Definition port_after_setup (b : RiscvBoard) (r : DevRef) : option Port :=
  if decide (r ∈ on_chip_devices b) then Some CacheMemSidePort
  else if decide (r ∈ off_chip_devices b) then Some IOBusMemSidePorts
  else pio (get_device b r).

(** The value a list of 32-bit cells stands for, most significant first. *)
Definition decode_cells (ws : list Z) : Z :=
  fold_left (fun acc w => acc * 2 ^ 32 + w) ws 0.

(** The single word of a one-word property. *)
Definition prop_word (name : string) (n : FdtNode) : option Z :=
  match find_prop name n with
  | Some (Words [w]) => Some w
  | _ => None
  end.

(** Every child of [parent] that has a [reg] property has as many words in
    it as [parent] declares in [#address-cells] and [#size-cells]. *)
Definition reg_cells_match (parent : FdtNode) : bool :=
  match prop_word "#address-cells" parent, prop_word "#size-cells" parent with
  | Some a, Some s =>
      forallb (fun c => match find_prop "reg" c with
                        | Some (Words ws) => Z.of_nat (length ws) =? a + s
                        | Some _ => false
                        | None => true
                        end) (children parent)
  | _, _ => false
  end.


(** * Properties *)

(** ** Handle allocation *)

Section PhandleFacts.

Implicit Types (st : CellState) (key k : string) (h : Z).

Lemma phandle_lookup st key :
  phandle_table (phandle st key).2 !! key = Some (phandle st key).1.
Proof.
  unfold phandle. destruct (phandle_table st !! key) as [h|] eqn:E; simpl.
  - exact E.
  - apply lookup_insert_eq.
Qed.

Lemma phandle_keeps st key k h :
  phandle_table st !! k = Some h ->
  phandle_table (phandle st key).2 !! k = Some h.
Proof.
  intros Hk. unfold phandle.
  destruct (phandle_table st !! key) as [h'|] eqn:E; simpl; [exact Hk|].
  rewrite lookup_insert_ne; [exact Hk|]. intros ->. congruence.
Qed.

Lemma phandle_fresh st key :
  phandle_table st !! key = None ->
  (phandle st key).1 = Z.of_nat (size (phandle_table st)) + 1.
Proof. intros E. unfold phandle. now rewrite E. Qed.

Lemma phandle_dom st key :
  dom (phandle_table (phandle st key).2) = {[key]} ∪ dom (phandle_table st).
Proof.
  unfold phandle. destruct (phandle_table st !! key) as [h|] eqn:E; simpl.
  - apply elem_of_dom_2 in E. set_solver.
  - apply dom_insert_L.
Qed.

Lemma phandle_cells st key :
  addr_cells (phandle st key).2 = addr_cells st /\
  size_cells (phandle st key).2 = size_cells st /\
  cpu_cells (phandle st key).2 = cpu_cells st /\
  interrupt_cells (phandle st key).2 = interrupt_cells st.
Proof.
  unfold phandle. destruct (phandle_table st !! key); simpl; auto.
Qed.

Lemma phandle_table_ok st key :
  table_ok (phandle_table st) -> table_ok (phandle_table (phandle st key).2).
Proof.
  intros [Hrange Hinj]. unfold phandle.
  destruct (phandle_table st !! key) as [h|] eqn:E; simpl; [now split|].
  split.
  - intros k h Hk. rewrite map_size_insert_None by exact E.
    destruct (decide (key = k)) as [<-|Hne].
    + rewrite lookup_insert_eq in Hk. injection Hk as <-. lia.
    + rewrite lookup_insert_ne in Hk by exact Hne.
      apply Hrange in Hk. lia.
  - intros k1 k2 h H1 H2.
    destruct (decide (key = k1)) as [<-|Hne1];
      destruct (decide (key = k2)) as [<-|Hne2]; trivial.
    + rewrite lookup_insert_eq in H1. injection H1 as <-.
      rewrite lookup_insert_ne in H2 by exact Hne2.
      apply Hrange in H2. lia.
    + rewrite lookup_insert_eq in H2. injection H2 as <-.
      rewrite lookup_insert_ne in H1 by exact Hne1.
      apply Hrange in H1. lia.
    + rewrite lookup_insert_ne in H1 by exact Hne1.
      rewrite lookup_insert_ne in H2 by exact Hne2.
      eauto.
Qed.

Lemma table_ok_empty : table_ok ∅.
Proof. split; intros *; rewrite lookup_empty; discriminate. Qed.

(** A run of requests, one step at a time. *)
Lemma phandle_seq_cons key keys st :
  phandle_seq (key :: keys) st =
  ((phandle st key).1 :: (phandle_seq keys (phandle st key).2).1,
   (phandle_seq keys (phandle st key).2).2).
Proof.
  simpl. destruct (phandle st key) as [h st1]; simpl.
  now destruct (phandle_seq keys st1).
Qed.

Lemma phandle_seq_app keys1 keys2 st :
  phandle_seq (keys1 ++ keys2) st =
  ((phandle_seq keys1 st).1 ++ (phandle_seq keys2 (phandle_seq keys1 st).2).1,
   (phandle_seq keys2 (phandle_seq keys1 st).2).2).
Proof.
  revert st. induction keys1 as [|k ks IH]; intros st.
  - simpl. now destruct (phandle_seq keys2 st).
  - rewrite <- app_comm_cons, !phandle_seq_cons, IH. reflexivity.
Qed.

Lemma phandle_seq_length keys st :
  length (phandle_seq keys st).1 = length keys.
Proof.
  revert st. induction keys as [|k ks IH]; intros st; [reflexivity|].
  rewrite phandle_seq_cons. simpl. now rewrite IH.
Qed.

Lemma phandle_seq_keeps keys st k h :
  phandle_table st !! k = Some h ->
  phandle_table (phandle_seq keys st).2 !! k = Some h.
Proof.
  revert st. induction keys as [|k' ks IH]; intros st Hk; [exact Hk|].
  rewrite phandle_seq_cons. simpl. apply IH, phandle_keeps, Hk.
Qed.

Lemma phandle_seq_table_ok keys st :
  table_ok (phandle_table st) ->
  table_ok (phandle_table (phandle_seq keys st).2).
Proof.
  revert st. induction keys as [|k ks IH]; intros st Hok; [exact Hok|].
  rewrite phandle_seq_cons. simpl. apply IH, phandle_table_ok, Hok.
Qed.

Lemma phandle_seq_dom keys st :
  dom (phandle_table (phandle_seq keys st).2) =
  list_to_set keys ∪ dom (phandle_table st).
Proof.
  revert st. induction keys as [|k ks IH]; intros st.
  - simpl. set_solver.
  - rewrite phandle_seq_cons. simpl. rewrite IH, phandle_dom. set_solver.
Qed.

(** Every handle of a run is the one the final table holds for its key. *)
Lemma phandle_seq_lookup keys st i k :
  keys !! i = Some k ->
  (phandle_seq keys st).1 !! i =
  Some (handle_of (phandle_seq keys st).2 k) /\
  phandle_table (phandle_seq keys st).2 !! k =
  Some (handle_of (phandle_seq keys st).2 k).
Proof.
  revert st i. induction keys as [|k' ks IH]; intros st i Hi; [discriminate|].
  rewrite phandle_seq_cons. simpl. destruct i as [|i]; simpl in *.
  - injection Hi as ->.
    pose proof (phandle_seq_keeps ks _ _ _ (phandle_lookup st k)) as Hk.
    unfold handle_of. rewrite Hk. simpl. now split.
  - now apply IH.
Qed.

End PhandleFacts.

(** C3. During the lifetime of one cell state, created with an empty
    table, every request returns a handle (one handle per request, and
    [phandle] is a total function); two requests return the same handle
    exactly when their keys are equal, so allocation is idempotent and
    injective; the first request returns 1, and the first request for a key
    returns one more than the number of keys seen before it. *)
Theorem phandle_idempotent_injective_total
    (ac sc cc ic : nat) (keys : list string) :
  let run := phandle_seq keys (FdtState ac sc cc ic) in
  length run.1 = length keys /\
  (forall i j ki kj hi hj,
      keys !! i = Some ki -> keys !! j = Some kj ->
      run.1 !! i = Some hi -> run.1 !! j = Some hj ->
      (ki = kj <-> hi = hj)) /\
  (forall k ks, keys = k :: ks -> run.1 !! 0%nat = Some 1) /\
  (forall i k,
      keys !! i = Some k -> k ∉ take i keys ->
      run.1 !! i =
      Some (Z.of_nat (size (list_to_set (take i keys) : gset string)) + 1)) /\
  (forall st key, exists h st', phandle st key = (h, st') /\
      phandle_table st' !! key = Some h).
Proof.
  intros run. subst run. set (st0 := FdtState ac sc cc ic).
  assert (Hok : table_ok (phandle_table (phandle_seq keys st0).2))
    by (apply phandle_seq_table_ok, table_ok_empty).
  split; [apply phandle_seq_length|]. split; [|split; [|split]].
  - intros i j ki kj hi hj Hi Hj Hhi Hhj.
    destruct (phandle_seq_lookup keys st0 i ki Hi) as [Ei Ti].
    destruct (phandle_seq_lookup keys st0 j kj Hj) as [Ej Tj].
    rewrite Ei in Hhi. rewrite Ej in Hhj.
    injection Hhi as <-. injection Hhj as <-. split.
    + now intros ->.
    + intros Heq. rewrite <- Heq in Tj.
      exact (proj2 Hok _ _ _ Ti Tj).
  - intros k ks ->. rewrite phandle_seq_cons. reflexivity.
  - intros i k Hi Hnew.
    pose proof (take_drop_middle keys i k Hi) as Hsplit.
    rewrite <- Hsplit at 1.
    rewrite phandle_seq_app, phandle_seq_cons. simpl.
    assert (Hlen : length (phandle_seq (take i keys) st0).1 = i).
    { rewrite phandle_seq_length, length_take.
      apply lookup_lt_Some in Hi. lia. }
    rewrite lookup_app_r by lia.
    rewrite Hlen, Nat.sub_diag. simpl. f_equal.
    set (st1 := (phandle_seq (take i keys) st0).2).
    assert (Hdom : dom (phandle_table st1) = list_to_set (take i keys)).
    { unfold st1. rewrite phandle_seq_dom. simpl. set_solver. }
    rewrite phandle_fresh.
    + now rewrite <- size_dom, Hdom.
    + apply not_elem_of_dom. rewrite Hdom. set_solver.
  - intros st key. exists (phandle st key).1, (phandle st key).2.
    split; [now destruct (phandle st key)|apply phandle_lookup].
Qed.

(** A run of five requests on three keys: handles 1, 2, 1, 3, 2. *)
Lemma phandle_idempotent_injective_total_witness :
  (phandle_seq ["a"; "b"; "a"; "c"; "b"] (FdtState 2 2 1 0)).1
    = [1; 2; 1; 3; 2] /\
  ("a" = "a" <-> 1 = 1) /\
  (phandle_seq ["a"; "b"; "a"; "c"; "b"] (FdtState 2 2 1 0)).1 !! 3%nat
    = Some (Z.of_nat (size (list_to_set (take 3 ["a"; "b"; "a"]) : gset string)) + 1).
Proof.
  pose proof (phandle_idempotent_injective_total 2 2 1 0
                ["a"; "b"; "a"; "c"; "b"]) as (_ & Hinj & _ & Hinc & _).
  split; [reflexivity|]. split.
  - apply (Hinj 0%nat 2%nat "a" "a" 1 1); reflexivity.
  - apply (Hinc 3%nat "c"); [reflexivity|].
    intros Hin. apply list_elem_of_In in Hin. simpl in Hin.
    destruct Hin as [H|[H|[H|[]]]]; discriminate H.
Defined.

(** ** Cell encoding *)

Lemma bit_length_above (v n : Z) :
  0 <= v -> 0 <= n -> (n < bit_length v <-> 2 ^ n <= v).
Proof.
  intros Hv Hn. unfold bit_length. destruct (Z.eqb_spec v 0) as [->|Hnz].
  - split; [lia|]. intros H. pose proof (Z.pow_pos_nonneg 2 n). lia.
  - rewrite Z.abs_eq by lia.
    rewrite (Z.log2_le_pow2 v n) by lia. lia.
Qed.

Lemma int_to_cells_overflow (v : Z) (cells : nat) :
  0 <= v -> 2 ^ (32 * Z.of_nat cells) <= v ->
  int_to_cells v cells = Raise EncodingError.
Proof.
  intros Hv Hbig. unfold int_to_cells.
  apply (bit_length_above v (32 * Z.of_nat cells)) in Hbig; [|lia|lia].
  apply Z.ltb_lt in Hbig. now rewrite Hbig.
Qed.

Lemma int_to_cells_fits (v : Z) (cells : nat) :
  0 <= v < 2 ^ (32 * Z.of_nat cells) ->
  int_to_cells v cells =
  Ok (map (fun x : nat => Z.land (Z.shiftr v (32 * Z.of_nat x)) 0xFFFFFFFF)
        (rev (seq 0 cells))).
Proof.
  intros [Hv Hsmall]. unfold int_to_cells.
  destruct (Z.ltb_spec (32 * Z.of_nat cells) (bit_length v)) as [Hlt|]; [|reflexivity].
  apply bit_length_above in Hlt; lia.
Qed.

Lemma fits64_spec (v : Z) : fits64 v = true <-> 0 <= v < 2 ^ 64.
Proof. unfold fits64. rewrite andb_true_iff, Z.leb_le, Z.ltb_lt. tauto. Qed.

Lemma int_to_cells_two (v : Z) :
  fits64 v = true ->
  int_to_cells v 2 =
  Ok [Z.land (Z.shiftr v 32) 0xFFFFFFFF; Z.land v 0xFFFFFFFF].
Proof.
  intros Hv. apply fits64_spec in Hv.
  rewrite int_to_cells_fits by (change (32 * Z.of_nat 2) with 64; exact Hv).
  simpl. now rewrite Z.shiftr_0_r.
Qed.

Lemma int_to_cells_one (v : Z) :
  0 <= v < 2 ^ 32 ->
  int_to_cells v 1 = Ok [Z.land v 0xFFFFFFFF].
Proof.
  intros Hv. rewrite int_to_cells_fits by exact Hv.
  simpl. now rewrite Z.shiftr_0_r.
Qed.

(** The only exception the encoder raises. *)
Lemma int_to_cells_raises (v : Z) (cells : nat) (e : exn) :
  int_to_cells v cells = Raise e -> e = EncodingError.
Proof.
  unfold int_to_cells. destruct (_ <? _); congruence.
Qed.

(** C6. Encoding a non-negative quantity that [cells * 32] bits cannot
    represent fails with [EncodingError], for an address as for a size; in
    particular a memory size of 33 or more bits fails in a scope whose
    size-cells count is 1, and so does the memory node built from it. *)
Theorem encoding_overflow_raises (st : CellState) (value : Z) :
  0 <= value ->
  (forall cells : nat,
      32 * Z.of_nat cells < bit_length value ->
      int_to_cells value cells = Raise EncodingError) /\
  (forall cells : nat,
      2 ^ (32 * Z.of_nat cells) <= value ->
      int_to_cells value cells = Raise EncodingError) /\
  (2 ^ (32 * Z.of_nat (addr_cells st)) <= value ->
      addrCells st value = Raise EncodingError) /\
  (2 ^ (32 * Z.of_nat (size_cells st)) <= value ->
      sizeCells st value = Raise EncodingError) /\
  (size_cells st = 1%nat -> 33 <= bit_length value ->
      sizeCells st value = Raise EncodingError /\
      forall start, memory_node st (mkRange start value) = Raise EncodingError).
Proof.
  intros Hv. split; [|split; [|split; [|split]]].
  - intros cells Hbits. apply int_to_cells_overflow; [exact Hv|].
    apply bit_length_above; lia.
  - intros cells. now apply int_to_cells_overflow.
  - now apply int_to_cells_overflow.
  - now apply int_to_cells_overflow.
  - intros Hone Hbits.
    assert (Hsz : int_to_cells value (size_cells st) = Raise EncodingError).
    { rewrite Hone. apply int_to_cells_overflow; [exact Hv|].
      apply (bit_length_above value 32); lia. }
    split; [exact Hsz|].
    intros start. unfold memory_node, addrCells, sizeCells. simpl.
    destruct (int_to_cells start (addr_cells st)) as [a|e] eqn:Ea; simpl.
    + now rewrite Hsz.
    + apply int_to_cells_raises in Ea. now subst e.
Qed.

(** A size of 2^32 bytes in a scope with one size cell. *)
Lemma encoding_overflow_raises_witness :
  0 <= 0x100000000 /\
  int_to_cells 0x100000000 1 = Raise EncodingError /\
  sizeCells (FdtState 2 1 1 0) 0x100000000 = Raise EncodingError /\
  memory_node (FdtState 2 1 1 0) (mkRange 0x80000000 0x100000000)
    = Raise EncodingError.
Proof.
  pose proof (encoding_overflow_raises (FdtState 2 1 1 0) 0x100000000
                ltac:(lia)) as (_ & Hcells & _ & _ & Hsize).
  split; [lia|]. split.
  - apply (Hcells 1%nat). simpl. lia.
  - destruct Hsize as [Hs Hm]; [reflexivity|vm_compute; discriminate|].
    split; [exact Hs|apply Hm].
Defined.

(** ** The loops over the cores *)

Lemma phandle_seq_cells keys st :
  addr_cells (phandle_seq keys st).2 = addr_cells st /\
  size_cells (phandle_seq keys st).2 = size_cells st /\
  cpu_cells (phandle_seq keys st).2 = cpu_cells st /\
  interrupt_cells (phandle_seq keys st).2 = interrupt_cells st.
Proof.
  revert st. induction keys as [|k ks IH]; intros st; [simpl; auto|].
  rewrite phandle_seq_cons. simpl.
  destruct (IH (phandle st k).2) as (-> & -> & -> & ->).
  apply phandle_cells.
Qed.

Lemma phandle_fresh_state a s c i key :
  phandle (FdtState a s c i) key = (1, mkState a s c i {[key := 1]}).
Proof.
  unfold phandle, FdtState. simpl. now rewrite lookup_empty, map_size_empty.
Qed.

(** Both [int_extended] loops request the keys of the cores in ascending
    order and append two (handle, context) pairs per core. *)
Lemma int_extended_loop_spec ctx_a ctx_b cs : forall i st acc,
  int_extended_loop ctx_a ctx_b i cs st acc =
  (acc ++ int_extended_words ctx_a ctx_b
            (phandle_seq (int_state_keys i (length cs)) st).1,
   (phandle_seq (int_state_keys i (length cs)) st).2).
Proof.
  induction cs as [|c cs IH]; intros i st acc.
  - simpl. now rewrite app_nil_r.
  - unfold int_state_keys. simpl length. simpl seq. simpl map.
    rewrite phandle_seq_cons. simpl int_extended_loop.
    destruct (phandle st (int_state_key i)) as [h st1] eqn:E.
    rewrite IH. simpl. unfold int_state_keys.
    now rewrite <- app_assoc.
Qed.

Lemma int_extended_words_length ctx_a ctx_b hs :
  length (int_extended_words ctx_a ctx_b hs) = (4 * length hs)%nat.
Proof. induction hs as [|h hs IH]; simpl in *; lia. Qed.

Lemma word_pairs_int_extended ctx_a ctx_b hs :
  word_pairs (int_extended_words ctx_a ctx_b hs) =
  flat_map (fun h => [(h, ctx_a); (h, ctx_b)]) hs.
Proof. induction hs as [|h hs IH]; simpl; [reflexivity|now rewrite IH]. Qed.

(** ** The nodes of the tree *)

Lemma generateBasicPioDeviceNode_fits st name addr size :
  addr_cells st = 2%nat -> size_cells st = 2%nat ->
  fits64 addr = true -> fits64 size = true ->
  generateBasicPioDeviceNode st name addr size = Ok (pio_node name addr size).
Proof.
  intros Ha Hs Haddr Hsize. unfold generateBasicPioDeviceNode, addrCells, sizeCells.
  rewrite Ha, Hs, (int_to_cells_two addr Haddr), (int_to_cells_two size Hsize).
  reflexivity.
Qed.

Lemma generateBasicPioDeviceNode_raises st name addr size e :
  generateBasicPioDeviceNode st name addr size = Raise e -> e = EncodingError.
Proof.
  unfold generateBasicPioDeviceNode, addrCells, sizeCells.
  destruct (int_to_cells addr _) eqn:Ea; simpl;
    [|intros [= <-]; eapply int_to_cells_raises, Ea].
  destruct (int_to_cells size _) eqn:Es; simpl; [discriminate|].
  intros [= <-]. eapply int_to_cells_raises, Es.
Qed.

Lemma memory_node_fits st r :
  addr_cells st = 2%nat -> size_cells st = 2%nat ->
  fits64 (range_start r) = true -> fits64 (range_size r) = true ->
  memory_node st r = Ok (expected_memory_node r).
Proof.
  intros Ha Hs Hstart Hsize. unfold memory_node, addrCells, sizeCells.
  rewrite Ha, Hs, (int_to_cells_two _ Hstart), (int_to_cells_two _ Hsize).
  reflexivity.
Qed.

Lemma memory_loop_fits st ranges : forall root,
  addr_cells st = 2%nat -> size_cells st = 2%nat ->
  forallb (fun r => fits64 (range_start r) && fits64 (range_size r)) ranges = true ->
  memory_loop st ranges root =
  Ok (mkNode (node_name root) (properties root)
        (children root ++ map expected_memory_node ranges) (node_phandle root)).
Proof.
  induction ranges as [|r rs IH]; intros root Ha Hs Hfit.
  - simpl. rewrite app_nil_r. now destruct root.
  - simpl in Hfit. apply andb_true_iff in Hfit as [Hr Hrs].
    apply andb_true_iff in Hr as [Hstart Hsize].
    simpl. rewrite (memory_node_fits st r Ha Hs Hstart Hsize). simpl.
    rewrite IH by assumption. simpl. now rewrite <- app_assoc.
Qed.

Lemma memory_loop_raises st ranges e : forall root,
  memory_loop st ranges root = Raise e -> e = EncodingError.
Proof.
  induction ranges as [|r rs IH]; intros root; simpl; [discriminate|].
  destruct (memory_node st r) as [node|e'] eqn:En; simpl; [apply IH|].
  intros [= <-]. revert En. unfold memory_node, addrCells, sizeCells.
  destruct (int_to_cells (range_start r) _) eqn:Ea; simpl;
    [|intros [= <-]; eapply int_to_cells_raises, Ea].
  destruct (int_to_cells (range_size r) _) eqn:Es; simpl; [discriminate|].
  intros [= <-]. eapply int_to_cells_raises, Es.
Qed.

Section TreeFacts.

Variable node_handle : string -> Z.

Lemma cpu_node_fits freq i st :
  cpu_cells st = 1%nat -> Z.of_nat i < 2 ^ 32 ->
  cpu_node node_handle freq i st =
  Ok (expected_cpu_node (node_handle (cpu_key i)) freq i,
      (phandle st (int_state_key i)).2).
Proof.
  intros Hc Hi. unfold cpu_node, CPUAddrCells.
  rewrite Hc, int_to_cells_one by lia. simpl.
  destruct (phandle st (int_state_key i)) as [h st1].
  rewrite phandle_fresh_state. reflexivity.
Qed.

Lemma cpu_node_raises freq i st e :
  cpu_node node_handle freq i st = Raise e -> e = EncodingError.
Proof.
  unfold cpu_node, CPUAddrCells.
  destruct (int_to_cells (Z.of_nat i) _) eqn:Ei; simpl.
  - destruct (phandle st (int_state_key i)).
    destruct (phandle (FdtState 0 0 0 1) (int_state_key i)). discriminate.
  - intros [= <-]. eapply int_to_cells_raises, Ei.
Qed.

Lemma cpu_loop_fits freq cs : forall i st cpus_node,
  cpu_cells st = 1%nat -> Z.of_nat (i + length cs) <= 2 ^ 32 ->
  cpu_loop node_handle freq i cs st cpus_node =
  Ok (mkNode (node_name cpus_node) (properties cpus_node)
        (children cpus_node ++
           map (fun j => expected_cpu_node (node_handle (cpu_key j)) freq j)
             (seq i (length cs)))
        (node_phandle cpus_node),
      (phandle_seq (int_state_keys i (length cs)) st).2).
Proof.
  induction cs as [|c cs IH]; intros i st cpus_node Hc Hi.
  - simpl. rewrite app_nil_r. now destruct cpus_node.
  - simpl length in *.
    change (int_state_keys i (S (length cs)))
      with (int_state_key i :: int_state_keys (S i) (length cs)).
    rewrite phandle_seq_cons. simpl cpu_loop.
    rewrite cpu_node_fits by (trivial; lia). simpl.
    rewrite IH; [|now rewrite (proj1 (proj2 (proj2 (phandle_cells st _))))|lia].
    simpl. now rewrite <- app_assoc.
Qed.

Lemma cpu_loop_raises freq cs e : forall i st cpus_node,
  cpu_loop node_handle freq i cs st cpus_node = Raise e -> e = EncodingError.
Proof.
  induction cs as [|c cs IH]; intros i st cpus_node; simpl; [discriminate|].
  destruct (cpu_node node_handle freq i st) as [[node st1]|e'] eqn:En; simpl.
  - apply IH.
  - intros [= <-]. eapply cpu_node_raises, En.
Qed.

Lemma clint_node_of_fits b soc_state :
  addr_cells soc_state = 2%nat -> size_cells soc_state = 2%nat ->
  device_fits (clint (platform b)) = true ->
  clint_node_of b soc_state =
  Ok (appendCompatible ["riscv,clint0"]
        (append (FdtPropertyWords "interrupts-extended"
                   (int_extended_words 0x3 0x7
                      (phandle_seq (int_state_keys 0 (length (cores b))) soc_state).1))
           (pio_node "clint" (pio_addr (clint (platform b)))
              (pio_size (clint (platform b))))),
      (phandle_seq (int_state_keys 0 (length (cores b))) soc_state).2).
Proof.
  intros Ha Hs Hfit. apply andb_true_iff in Hfit as [Haddr Hsize].
  unfold clint_node_of.
  rewrite generateBasicPioDeviceNode_fits by assumption. simpl.
  now rewrite int_extended_loop_spec.
Qed.

Lemma plic_node_of_fits b state soc_state :
  addr_cells soc_state = 2%nat -> size_cells soc_state = 2%nat ->
  device_fits (plic (platform b)) = true ->
  plic_node_of b state soc_state =
  Ok (appendCompatible ["riscv,plic0"]
        (append (FdtProperty "interrupt-controller")
           (append (FdtPropertyWords "interrupts-extended"
                      (int_extended_words 0xB 0x9
                         (phandle_seq (int_state_keys 0 (length (cores b))) state).1))
              (append (FdtPropertyWords "riscv,ndev" [plic_n_src (platform b) - 1])
                 (append (FdtPropertyWords "phandle" [1])
                    (append (FdtPropertyWords "#interrupt-cells" [1])
                       (append (FdtPropertyWords "#address-cells" [0])
                          (pio_node "plic" (pio_addr (plic (platform b)))
                             (pio_size (plic (platform b)))))))))),
      (phandle_seq (int_state_keys 0 (length (cores b))) state).2).
Proof.
  intros Ha Hs Hfit. apply andb_true_iff in Hfit as [Haddr Hsize].
  unfold plic_node_of.
  rewrite generateBasicPioDeviceNode_fits by assumption. simpl.
  rewrite phandle_fresh_state. now rewrite int_extended_loop_spec.
Qed.

Lemma uart_node_of_fits b soc_state :
  addr_cells soc_state = 2%nat -> size_cells soc_state = 2%nat ->
  device_fits (uart (platform b)) = true ->
  uart_node_of b soc_state =
  Ok (appendCompatible ["ns8250"]
        (append (FdtPropertyWords "interrupt-parent"
                   [(phandle soc_state (plic_ref (platform b))).1])
           (append (FdtPropertyWords "clock-frequency" [0x384000])
              (append (FdtPropertyWords "interrupts" [uart_int_id (platform b)])
                 (pio_node "uart" (pio_addr (uart (platform b)))
                    (pio_size (uart (platform b))))))),
      (phandle soc_state (plic_ref (platform b))).2).
Proof.
  intros Ha Hs Hfit. apply andb_true_iff in Hfit as [Haddr Hsize].
  unfold uart_node_of.
  rewrite generateBasicPioDeviceNode_fits by assumption. simpl.
  now destruct (phandle soc_state (plic_ref (platform b))).
Qed.

Lemma disk_node_of_fits b soc_state :
  addr_cells soc_state = 2%nat -> size_cells soc_state = 2%nat ->
  device_fits (disk_dev (disk b)) = true ->
  disk_node_of b soc_state =
  Ok (appendCompatible ["virtio,mmio"]
        (append (FdtPropertyWords "interrupt-parent"
                   [(phandle soc_state (plic_ref (platform b))).1])
           (append (FdtPropertyWords "interrupts" [interrupt_id (disk b)])
              (pio_node "virtio_mmio" (pio_addr (disk_dev (disk b)))
                 (pio_size (disk_dev (disk b)))))),
      (phandle soc_state (plic_ref (platform b))).2).
Proof.
  intros Ha Hs Hfit. apply andb_true_iff in Hfit as [Haddr Hsize].
  unfold disk_node_of.
  rewrite generateBasicPioDeviceNode_fits by assumption. simpl.
  now destruct (phandle soc_state (plic_ref (platform b))).
Qed.

End TreeFacts.

(** ** The whole tree *)

Section BuildFacts.

Variable node_handle : string -> Z.

Lemma board_fits_spec b :
  board_fits b = true ->
  forallb (fun r => fits64 (range_start r) && fits64 (range_size r))
    (mem_ranges b) = true /\
  Z.of_nat (length (cores b)) <= 2 ^ 32 /\
  device_fits (clint (platform b)) = true /\
  device_fits (plic (platform b)) = true /\
  device_fits (uart (platform b)) = true /\
  device_fits (disk_dev (disk b)) = true.
Proof.
  unfold board_fits. rewrite !andb_true_iff, Z.leb_le. tauto.
Qed.

Lemma cpus_node_of_fits b :
  Z.of_nat (length (cores b)) <= 2 ^ 32 ->
  cpus_node_of node_handle b (FdtState 2 2 1 0) =
  Ok (expected_cpus_node node_handle b, state_after_cpus b).
Proof.
  intros Hn. unfold cpus_node_of. rewrite cpu_loop_fits; [reflexivity..|].
  simpl. lia.
Qed.

Lemma soc_node_of_fits b state :
  device_fits (clint (platform b)) = true ->
  device_fits (plic (platform b)) = true ->
  device_fits (uart (platform b)) = true ->
  device_fits (disk_dev (disk b)) = true ->
  state = state_after_cpus b ->
  exists state',
    soc_node_of b state =
    Ok (mkNode "soc" soc_properties
          [ expected_clint_node b; expected_plic_node b;
            expected_uart_node b; expected_disk_node b ] None,
        state').
Proof.
  intros Hc Hp Hu Hd ->. unfold soc_node_of.
  rewrite clint_node_of_fits by (trivial; reflexivity). simpl.
  fold (soc_state_after_clint b).
  destruct (phandle_seq_cells (int_state_keys 0 (length (cores b)))
              (FdtState 2 2 0 0)) as (Ha & Hs & _).
  fold (soc_state_after_clint b) in Ha, Hs. simpl in Ha, Hs.
  rewrite plic_node_of_fits by assumption. simpl.
  rewrite uart_node_of_fits by assumption. simpl.
  destruct (phandle_cells (soc_state_after_clint b) (plic_ref (platform b)))
    as (Ha' & Hs' & _).
  rewrite disk_node_of_fits by congruence. simpl.
  eexists. reflexivity.
Qed.

(** The tree of a board whose quantities fit their cells. *)
Lemma build_device_tree_fits b :
  board_fits b = true ->
  build_device_tree node_handle b =
  Ok (mkNode "/" root_properties
        (map expected_memory_node (mem_ranges b) ++
         [ expected_cpus_node node_handle b;
           mkNode "soc" soc_properties
             [ expected_clint_node b; expected_plic_node b;
               expected_uart_node b; expected_disk_node b ] None ])
        None).
Proof.
  intros Hfit. apply board_fits_spec in Hfit as (Hm & Hn & Hc & Hp & Hu & Hd).
  unfold build_device_tree.
  rewrite memory_loop_fits by (trivial; reflexivity). simpl.
  rewrite cpus_node_of_fits by exact Hn. simpl.
  destruct (soc_node_of_fits b _ Hc Hp Hu Hd eq_refl) as [state' ->]. simpl.
  unfold append_child. simpl. now rewrite <- app_assoc.
Qed.

(** The builder raises nothing but [EncodingError]. *)
Lemma build_device_tree_raises b e :
  build_device_tree node_handle b = Raise e -> e = EncodingError.
Proof.
  unfold build_device_tree.
  destruct (memory_loop _ _ _) as [root|e1] eqn:Em; simpl;
    [|intros [= <-]; eapply memory_loop_raises, Em].
  unfold cpus_node_of.
  destruct (cpu_loop _ _ _ _ _ _) as [[cpus st]|e1] eqn:Ec; simpl;
    [|intros [= <-]; eapply cpu_loop_raises, Ec].
  unfold soc_node_of, clint_node_of, plic_node_of, uart_node_of, disk_node_of.
  repeat match goal with
  | |- context [generateBasicPioDeviceNode ?s ?n ?a ?z] =>
      let E := fresh "E" in
      destruct (generateBasicPioDeviceNode s n a z) eqn:E; simpl;
      [|intros [= <-]; eapply generateBasicPioDeviceNode_raises, E]
  | |- context [int_extended_loop ?a ?b ?i ?cs ?s ?acc] =>
      destruct (int_extended_loop a b i cs s acc); simpl
  | |- context [phandle ?s ?k] => destruct (phandle s k); simpl
  end.
  discriminate.
Qed.

End BuildFacts.

(** ** Scenario A, evaluated *)

Lemma scenario_board_constructed (n : nat) (mem : Z) :
  (b ← RiscvBoard_init simple_board_init requires_ok hifive_platform id
         "1GHz" (replicate n (mkCore None)) mem (mkCache false);
   mret (setup_memory_ranges b)) = Ok (scenario_board n mem).
Proof.
  unfold RiscvBoard_init, simple_board_init, requires_ok, get_num_cores.
  simpl. now rewrite length_replicate.
Qed.

Example scenario_a_fits : board_fits (scenario_board 1 0x10000000) = true.
Proof. reflexivity. Qed.

Example scenario_a_root_children :
  (fun r => match r with
            | Ok root => map node_name (children root)
            | Raise _ => []
            end) (build_device_tree plain_node_handle (scenario_board 1 0x10000000))
  = ["memory@80000000"; "cpus"; "soc"].
Proof. vm_compute. reflexivity. Qed.

Example scenario_a_soc_children :
  (fun r => match r with
            | Ok root => soc_children_names root
            | Raise _ => None
            end) (build_device_tree plain_node_handle (scenario_board 1 0x10000000))
  = Some ["clint@2000000"; "plic@c000000"; "uart@10000000"; "virtio_mmio@10008000"].
Proof. vm_compute. reflexivity. Qed.

(** ** The children of the root and of the soc node *)

Lemma find_soc_after_memory (ranges : list AddrRange) (cpus soc : FdtNode) :
  node_name cpus = "cpus" -> node_name soc = "soc" ->
  List.find (fun n => String.eqb (node_name n) "soc")
    (map expected_memory_node ranges ++ [cpus; soc]) = Some soc.
Proof.
  intros Hc Hs. induction ranges as [|r rs IH]; simpl.
  - now rewrite Hc, Hs.
  - exact IH.
Qed.

Lemma last_after_two {A} (l : list A) (x y : A) : last (l ++ [x; y]) = Some y.
Proof.
  replace (l ++ [x; y]) with ((l ++ [x]) ++ [y]) by now rewrite <- app_assoc.
  apply last_snoc.
Qed.

(** C8. On a board whose quantities fit their cells the tree is built, and
    the children of its root are one [memory@<hex-start>] node per memory
    range, in input order, each with the [device_type] strings property
    ["memory"] and the [reg] property that encodes (start, size), followed
    by the [cpus] node and then the [soc] node. *)
Theorem root_children_memory_cpus_soc
    (node_handle : string -> Z) (b : RiscvBoard) :
  board_fits b = true ->
  exists root mems cpus soc,
    build_device_tree node_handle b = Ok root /\
    children root = mems ++ [cpus; soc] /\
    node_name cpus = "cpus" /\ node_name soc = "soc" /\
    length mems = length (mem_ranges b) /\
    forall (i : nat) (r : AddrRange),
      mem_ranges b !! i = Some r ->
      exists m a s,
        mems !! i = Some m /\
        node_name m = "memory@" +:+ format_hex (range_start r) /\
        addrCells (FdtState 2 2 1 0) (range_start r) = Ok a /\
        sizeCells (FdtState 2 2 1 0) (range_size r) = Ok s /\
        properties m = [ FdtPropertyStrings "device_type" ["memory"];
                         FdtPropertyWords "reg" (a ++ s) ] /\
        children m = [].
Proof.
  intros Hfit. rewrite (build_device_tree_fits node_handle b Hfit).
  apply board_fits_spec in Hfit as (Hm & _).
  eexists _, (map expected_memory_node (mem_ranges b)), _, _.
  split; [reflexivity|]. split; [reflexivity|].
  split; [reflexivity|]. split; [reflexivity|].
  split; [apply length_map|].
  intros i r Hi.
  assert (Hr : fits64 (range_start r) && fits64 (range_size r) = true).
  { rewrite forallb_forall in Hm. apply Hm.
    apply list_elem_of_In, list_elem_of_lookup. eauto. }
  apply andb_true_iff in Hr as [Hstart Hsize].
  eexists (expected_memory_node r), _, _.
  split; [now rewrite list_lookup_fmap, Hi|].
  split; [reflexivity|].
  split; [exact (int_to_cells_two _ Hstart)|].
  split; [exact (int_to_cells_two _ Hsize)|].
  split; reflexivity.
Qed.

(** Scenario A: one range at 0x80000000 of 0x10000000 bytes. *)
Lemma root_children_memory_cpus_soc_witness :
  board_fits (scenario_board 1 0x10000000) = true /\
  exists root mems cpus soc,
    build_device_tree plain_node_handle (scenario_board 1 0x10000000) = Ok root /\
    children root = mems ++ [cpus; soc] /\
    node_name cpus = "cpus" /\ node_name soc = "soc" /\
    length mems = 1%nat.
Proof.
  split; [reflexivity|].
  destruct (root_children_memory_cpus_soc plain_node_handle
              (scenario_board 1 0x10000000) eq_refl)
    as (root & mems & cpus & soc & Hb & Hch & Hc & Hs & Hlen & _).
  exists root, mems, cpus, soc. auto.
Defined.

Lemma soc_state_after_clint_cells (b : RiscvBoard) (key : string) :
  addr_cells (soc_state_after_clint b) = 2%nat /\
  size_cells (soc_state_after_clint b) = 2%nat /\
  addr_cells (phandle (soc_state_after_clint b) key).2 = 2%nat /\
  size_cells (phandle (soc_state_after_clint b) key).2 = 2%nat.
Proof.
  destruct (phandle_seq_cells (int_state_keys 0 (length (cores b)))
              (FdtState 2 2 0 0)) as (Ha & Hs & _).
  destruct (phandle_cells (soc_state_after_clint b) key) as (Ha' & Hs' & _).
  unfold soc_state_after_clint in *. simpl in Ha, Hs. repeat split; congruence.
Qed.

(** C1, as stated, fails in scenario A: the [soc] node does not list the
    interrupt distributor before the timer. *)
Lemma soc_children_order_counterexample :
  exists root,
    build_device_tree plain_node_handle (scenario_board 1 0x10000000) = Ok root /\
    soc_children_names root <>
    Some ["plic@c000000"; "clint@2000000"; "uart@10000000"; "virtio_mmio@10008000"].
Proof.
  rewrite (build_device_tree_fits plain_node_handle _ scenario_a_fits).
  eexists. split; [reflexivity|]. vm_compute. discriminate.
Qed.

(** C1, amended. On a board whose quantities fit their cells (scenario A is
    one) the tree is built and the children of its [soc] node are exactly
    the timer (CLINT) node, the interrupt-distributor (PLIC) node, the UART
    node and the disk node, in that order: each is the node its block of
    the builder returns, named after its device and base address. *)
Theorem soc_children_timer_first (node_handle : string -> Z) (b : RiscvBoard) :
  board_fits b = true ->
  exists root soc clint_n plic_n uart_n disk_n soc1 st2 soc2 soc3,
    build_device_tree node_handle b = Ok root /\
    last (children root) = Some soc /\
    node_name soc = "soc" /\
    children soc = [clint_n; plic_n; uart_n; disk_n] /\
    clint_node_of b (FdtState 2 2 0 0) = Ok (clint_n, soc1) /\
    plic_node_of b (state_after_cpus b) soc1 = Ok (plic_n, st2) /\
    uart_node_of b soc1 = Ok (uart_n, soc2) /\
    disk_node_of b soc2 = Ok (disk_n, soc3) /\
    soc_children_names root =
    Some [ "clint@" +:+ format_hex (pio_addr (clint (platform b)));
           "plic@" +:+ format_hex (pio_addr (plic (platform b)));
           "uart@" +:+ format_hex (pio_addr (uart (platform b)));
           "virtio_mmio@" +:+ format_hex (pio_addr (disk_dev (disk b))) ].
Proof.
  intros Hfit. rewrite (build_device_tree_fits node_handle b Hfit).
  apply board_fits_spec in Hfit as (_ & _ & Hc & Hp & Hu & Hd).
  destruct (soc_state_after_clint_cells b (plic_ref (platform b)))
    as (Ha & Hs & Ha' & Hs').
  eexists _, _, (expected_clint_node b), (expected_plic_node b),
    (expected_uart_node b), (expected_disk_node b),
    (soc_state_after_clint b), _,
    (phandle (soc_state_after_clint b) (plic_ref (platform b))).2, _.
  split; [reflexivity|].
  split; [apply last_after_two|].
  split; [reflexivity|]. split; [reflexivity|].
  split; [now rewrite clint_node_of_fits|].
  split; [now rewrite plic_node_of_fits|].
  split; [now rewrite uart_node_of_fits|].
  split; [now rewrite disk_node_of_fits|].
  unfold soc_children_names. simpl children.
  rewrite find_soc_after_memory by reflexivity. reflexivity.
Qed.

(** Scenario A: clint, plic, uart, virtio_mmio. *)
Lemma soc_children_timer_first_witness :
  board_fits (scenario_board 1 0x10000000) = true /\
  exists root,
    build_device_tree plain_node_handle (scenario_board 1 0x10000000) = Ok root /\
    soc_children_names root =
    Some ["clint@2000000"; "plic@c000000"; "uart@10000000"; "virtio_mmio@10008000"].
Proof.
  split; [reflexivity|].
  destruct (soc_children_timer_first plain_node_handle
              (scenario_board 1 0x10000000) eq_refl)
    as (root & soc & c & p & u & d & s1 & s2 & s3 & s4 & Hb & _ & _ & _ & _ & _ & _ & _ & Hn).
  exists root. split; [exact Hb|exact Hn].
Defined.

(** ** The interrupts-extended lists *)

Lemma generateBasicPioDeviceNode_shape st name addr size n :
  generateBasicPioDeviceNode st name addr size = Ok n ->
  exists ws, n = mkNode (name +:+ "@" +:+ format_hex addr)
                   [FdtPropertyWords "reg" ws] [] None.
Proof.
  unfold generateBasicPioDeviceNode.
  destruct (addrCells st addr) as [a|]; simpl; [|discriminate].
  destruct (sizeCells st size) as [s|]; simpl; [|discriminate].
  intros [= <-]. now exists (a ++ s).
Qed.

Lemma phandle_seq_handles keys st :
  (phandle_seq keys st).1 = map (handle_of (phandle_seq keys st).2) keys.
Proof.
  apply list_eq. intros i. rewrite list_lookup_fmap.
  destruct (keys !! i) as [k|] eqn:Hi; simpl.
  - apply phandle_seq_lookup, Hi.
  - apply lookup_ge_None. rewrite phandle_seq_length.
    now apply lookup_ge_None.
Qed.

Lemma flat_map_map {A B C} (f : B -> list C) (g : A -> B) (l : list A) :
  flat_map f (map g l) = flat_map (fun x => f (g x)) l.
Proof. induction l as [|x l IH]; simpl; [reflexivity|now rewrite IH]. Qed.

Lemma flat_map_pairs_length {A} (f g : A -> Z * Z) (l : list A) :
  length (flat_map (fun x => [f x; g x]) l) = (2 * length l)%nat.
Proof. induction l as [|x l IH]; simpl in *; lia. Qed.

Lemma int_state_keys_length (i n : nat) : length (int_state_keys i n) = n.
Proof. unfold int_state_keys. now rewrite length_map, length_seq. Qed.

(** The pairs both loops produce, in terms of the cell state they leave. *)
Lemma int_extended_pairs ctx_a ctx_b (n : nat) (st : CellState) :
  let run := phandle_seq (int_state_keys 0 n) st in
  word_pairs (int_extended_words ctx_a ctx_b run.1) =
  flat_map (fun i => [ (handle_of run.2 (int_state_key i), ctx_a);
                       (handle_of run.2 (int_state_key i), ctx_b) ])
    (seq 0 n).
Proof.
  intros run. rewrite word_pairs_int_extended. unfold run.
  rewrite phandle_seq_handles. unfold int_state_keys.
  now rewrite !flat_map_map.
Qed.

(** C2. For every core count [N] (so for every [N >= 1]) the
    [interrupts-extended] property of the timer node and of the distributor
    node holds exactly [2 * N] (phandle, context) pairs: the cores in
    ascending index order and, for each core, the pair of its first context
    identifier (0x3 for the timer, 0xB for the distributor) then the pair
    of its second one (0x7, 0x9), both with the handle of the key
    [cpu@i.int_state] in the cell state the loop used. *)
Theorem interrupts_extended_core_ascending
    (b : RiscvBoard) (state soc_state soc_state' : CellState)
    (clint_n plic_n : FdtNode) (soc1 st1 : CellState) :
  clint_node_of b soc_state = Ok (clint_n, soc1) ->
  plic_node_of b state soc_state' = Ok (plic_n, st1) ->
  let N := length (cores b) in
  exists ws_c ws_p,
    find_prop "interrupts-extended" clint_n = Some (Words ws_c) /\
    find_prop "interrupts-extended" plic_n = Some (Words ws_p) /\
    length ws_c = (4 * N)%nat /\ length ws_p = (4 * N)%nat /\
    length (word_pairs ws_c) = (2 * N)%nat /\
    length (word_pairs ws_p) = (2 * N)%nat /\
    word_pairs ws_c =
      flat_map (fun i => [ (handle_of soc1 (int_state_key i), 0x3);
                           (handle_of soc1 (int_state_key i), 0x7) ]) (seq 0 N) /\
    word_pairs ws_p =
      flat_map (fun i => [ (handle_of st1 (int_state_key i), 0xB);
                           (handle_of st1 (int_state_key i), 0x9) ]) (seq 0 N) /\
    forall i, (i < N)%nat ->
      phandle_table soc1 !! int_state_key i =
        Some (handle_of soc1 (int_state_key i)) /\
      phandle_table st1 !! int_state_key i =
        Some (handle_of st1 (int_state_key i)).
Proof.
  intros Hclint Hplic N.
  unfold clint_node_of in Hclint. unfold plic_node_of in Hplic.
  destruct (generateBasicPioDeviceNode soc_state "clint" _ _) as [c0|] eqn:Ec;
    simpl in Hclint; [|discriminate].
  destruct (generateBasicPioDeviceNode soc_state' "plic" _ _) as [p0|] eqn:Ep;
    simpl in Hplic; [|discriminate].
  apply generateBasicPioDeviceNode_shape in Ec as [wc ->].
  apply generateBasicPioDeviceNode_shape in Ep as [wp ->].
  rewrite phandle_fresh_state in Hplic.
  rewrite int_extended_loop_spec in Hclint, Hplic. simpl in Hclint, Hplic.
  injection Hclint as <- <-. injection Hplic as <- <-.
  fold N.
  eexists _, _. split; [reflexivity|]. split; [reflexivity|].
  split; [now rewrite int_extended_words_length, phandle_seq_length,
            int_state_keys_length|].
  split; [now rewrite int_extended_words_length, phandle_seq_length,
            int_state_keys_length|].
  rewrite !int_extended_pairs.
  split; [now rewrite flat_map_pairs_length, length_seq|].
  split; [now rewrite flat_map_pairs_length, length_seq|].
  split; [reflexivity|]. split; [reflexivity|].
  intros i Hi.
  assert (Hkey : int_state_keys 0 N !! i = Some (int_state_key i)).
  { unfold int_state_keys. rewrite list_lookup_fmap.
    rewrite lookup_seq_lt by exact Hi. reflexivity. }
  split; eapply phandle_seq_lookup, Hkey.
Qed.

(** Two cores: four pairs for each device. *)
Lemma interrupts_extended_core_ascending_witness :
  exists clint_n plic_n ws_c ws_p,
    clint_node_of (scenario_board 2 0x10000000) (FdtState 2 2 0 0)
      = Ok (clint_n, soc_state_after_clint (scenario_board 2 0x10000000)) /\
    find_prop "interrupts-extended" clint_n = Some (Words ws_c) /\
    find_prop "interrupts-extended" plic_n = Some (Words ws_p) /\
    length (word_pairs ws_c) = 4%nat /\ length (word_pairs ws_p) = 4%nat.
Proof.
  pose (b := scenario_board 2 0x10000000).
  pose proof (clint_node_of_fits b (FdtState 2 2 0 0) eq_refl eq_refl eq_refl)
    as Hc.
  pose proof (plic_node_of_fits b (state_after_cpus b) (soc_state_after_clint b)
                (proj1 (soc_state_after_clint_cells b ""))
                (proj1 (proj2 (soc_state_after_clint_cells b ""))) eq_refl)
    as Hp.
  destruct (interrupts_extended_core_ascending b _ _ _ _ _ _ _ Hc Hp)
    as (ws_c & ws_p & Hfc & Hfp & _ & _ & Hlc & Hlp & _).
  eexists _, _, ws_c, ws_p.
  split; [exact Hc|]. split; [exact Hfc|]. split; [exact Hfp|].
  split; [exact Hlc|exact Hlp].
Defined.

(** ** The output files *)

Lemma string_app_inv_head (p s t : string) : p +:+ s = p +:+ t -> s = t.
Proof.
  induction p as [|c p IH]; simpl; [trivial|].
  intros [= H]. now apply IH.
Qed.

Lemma path_join_inj (dir name1 name2 : string) :
  path_join dir name1 = path_join dir name2 -> name1 = name2.
Proof.
  unfold path_join. destruct (String.eqb dir ""); [trivial|].
  destruct (ends_with_slash dir).
  - apply string_app_inv_head.
  - intros H. apply string_app_inv_head in H.
    now apply (string_app_inv_head "/") in H.
Qed.

Lemma dts_dtb_paths_differ (outdir : string) : dts_path outdir <> dtb_path outdir.
Proof. intros H. apply path_join_inj in H. discriminate H. Qed.

Section OutputFacts.

Variable node_handle : string -> Z.
Variable to_dts : FdtNode -> result string.
Variable to_dtb : FdtNode -> result (list Z).

(** C7, amended. A build ends in one of three ways.  It succeeds and both
    files are written.  Or it fails while the tree is built (with
    [EncodingError]) or while [device.dts] is serialized or written, and
    the output directory is unchanged.  Or it fails while [device.dtb] is
    serialized or written: then [device.dts] of this build is on disk and
    [device.dtb] is as it was before. *)
Theorem generate_device_tree_outcomes
    (b : RiscvBoard) (outdir : string) (fs : FileSystem) :
  let out := generate_device_tree node_handle to_dts to_dtb b outdir fs in
  (exists root text blob,
      build_device_tree node_handle b = Ok root /\
      to_dts root = Ok text /\ to_dtb root = Ok blob /\
      out = (mkFS (<[dtb_path outdir := BinaryFile blob]>
                     (<[dts_path outdir := TextFile text]> (files fs)))
                  (writable fs), Ok tt))
  \/
  (exists e,
      out = (fs, Raise e) /\
      ((build_device_tree node_handle b = Raise e /\ e = EncodingError) \/
       exists root,
         build_device_tree node_handle b = Ok root /\
         (to_dts root = Raise e \/
          (writable fs (dts_path outdir) = false /\ e = IOError))))
  \/
  (exists e root text,
      build_device_tree node_handle b = Ok root /\
      to_dts root = Ok text /\
      (to_dtb root = Raise e \/
       (writable fs (dtb_path outdir) = false /\ e = IOError)) /\
      out = (mkFS (<[dts_path outdir := TextFile text]> (files fs))
                  (writable fs), Raise e) /\
      files out.1 !! dts_path outdir = Some (TextFile text) /\
      files out.1 !! dtb_path outdir = files fs !! dtb_path outdir).
Proof.
  intros out. subst out. unfold generate_device_tree.
  fold (dts_path outdir). fold (dtb_path outdir).
  destruct (build_device_tree node_handle b) as [root|e] eqn:Eb.
  2:{ right; left. exists e. split; [reflexivity|]. left.
      split; [reflexivity|]. eapply build_device_tree_raises, Eb. }
  unfold writeDtsFile, writeDtbFile, write_file.
  destruct (to_dts root) as [text|e] eqn:Ets.
  2:{ right; left. exists e. split; [reflexivity|]. right. exists root. auto. }
  destruct (writable fs (dts_path outdir)) eqn:Hw1.
  2:{ right; left. exists IOError. split; [reflexivity|]. right.
      exists root. auto. }
  simpl. destruct (to_dtb root) as [blob|e] eqn:Etb.
  - destruct (writable fs (dtb_path outdir)) eqn:Hw2.
    + left. exists root, text, blob. auto.
    + right; right. exists IOError, root, text. simpl.
      rewrite lookup_insert_eq, lookup_insert_ne by apply dts_dtb_paths_differ.
      repeat split; auto.
  - right; right. exists e, root, text. simpl.
    rewrite lookup_insert_eq, lookup_insert_ne by apply dts_dtb_paths_differ.
    repeat split; auto.
Qed.

End OutputFacts.

(** C7, as stated, fails: when [device.dtb] cannot be written the build
    raises and leaves the [device.dts] it has just written. *)
Lemma partial_output_counterexample :
  exists fs',
    generate_device_tree plain_node_handle plain_to_dts plain_to_dtb
      (scenario_board 1 0x10000000) "out" (empty_outdir dtb_readonly)
    = (fs', Raise IOError) /\
    files (empty_outdir dtb_readonly) !! "out/device.dts" = None /\
    files fs' !! "out/device.dts" = Some (TextFile "/") /\
    files fs' !! "out/device.dtb" = None.
Proof.
  eexists. split; [vm_compute; reflexivity|].
  split; [reflexivity|]. split; vm_compute; reflexivity.
Qed.

(** ** The workload *)

Lemma connect_pio_workload (p : Port) (r : DevRef) (b : RiscvBoard) :
  workload (connect_pio p r b) = workload b.
Proof. now destruct r. Qed.

Lemma connect_all_workload (p : Port) (rs : list DevRef) : forall b,
  workload (fold_left (fun b r => connect_pio p r b) rs b) = workload b.
Proof.
  induction rs as [|r rs IH]; intros b; simpl; [reflexivity|].
  now rewrite IH, connect_pio_workload.
Qed.

Lemma _setup_io_devices_workload (b : RiscvBoard) :
  workload (_setup_io_devices b) = workload b.
Proof.
  unfold _setup_io_devices. simpl. now rewrite !connect_all_workload.
Qed.

Lemma _setup_pma_workload (b : RiscvBoard) :
  workload (_setup_pma b) = workload b.
Proof. reflexivity. Qed.

(** C9. [set_workload] does not use its [command] argument: two calls that
    differ in it only leave the same board, the same output directory and
    the same outcome; and however the call ends, the kernel command line of
    the board is ["console=ttyS0 root=/dev/vda ro"]. *)
Theorem set_workload_ignores_command
    (node_handle : string -> Z)
    (to_dts : FdtNode -> result string) (to_dtb : FdtNode -> result (list Z))
    (bootloader disk_image : AbstractResource) (command1 command2 : option string)
    (outdir : string) (b : RiscvBoard) (fs : FileSystem) :
  set_workload node_handle to_dts to_dtb bootloader disk_image command1 outdir b fs
  = set_workload node_handle to_dts to_dtb bootloader disk_image command2 outdir b fs
  /\
  command_line
    (workload (set_workload node_handle to_dts to_dtb bootloader disk_image
                 command1 outdir b fs).1.1)
  = Some "console=ttyS0 root=/dev/vda ro".
Proof.
  split; [reflexivity|]. unfold set_workload.
  destruct (generate_device_tree _ _ _ _ _ _) as [fs' [[]|e]];
    cbn -[_setup_io_devices _setup_pma];
    now rewrite _setup_pma_workload, _setup_io_devices_workload.
Qed.

Example set_workload_scenario_a :
  (fun out => (object_file (workload out.1.1), command_line (workload out.1.1),
               dtb_addr (workload out.1.1), dtb_filename (workload out.1.1),
               out.2))
    (set_workload plain_node_handle plain_to_dts plain_to_dtb
       (mkResource "bbl") (mkResource "disk.img") (Some "ls")
       "out" (scenario_board 1 0x10000000) (empty_outdir (fun _ => true)))
  = (Some "bbl", Some "console=ttyS0 root=/dev/vda ro", Some 0x87E00000,
     Some "out/device.dtb", Ok tt).
Proof. vm_compute. reflexivity. Qed.

(** ** The constructor *)

(** C10. When the superclass constructor and the ISA requirement have
    completed, a cache hierarchy whose [is_ruby] is true makes the
    constructor raise [EnvironmentError] and no board is assembled, whatever
    the platform collaborators are; one whose [is_ruby] is false passes the
    check and the board is assembled. *)
Theorem ruby_hierarchy_rejected
    (SimpleBoard_init : string -> list Core -> Z -> CacheHierarchy -> result SimpleBoard)
    (requires : ISA -> result unit)
    (HiFive : Platform) (attachPlic : Platform -> Platform)
    (clk_freq : string) (processor : list Core) (memory : Z)
    (cache : CacheHierarchy) (self : SimpleBoard) :
  SimpleBoard_init clk_freq processor memory cache = Ok self ->
  requires RISCV = Ok tt ->
  (is_ruby cache = true ->
     RiscvBoard_init SimpleBoard_init requires HiFive attachPlic
       clk_freq processor memory cache
     = Raise (EnvironmentError "RiscvBoard is not compatible with Ruby")) /\
  (is_ruby cache = false ->
     exists b,
       RiscvBoard_init SimpleBoard_init requires HiFive attachPlic
         clk_freq processor memory cache = Ok b /\
       workload b = mkWorkload None None None None /\
       clint_num_threads (platform b) = get_num_cores self /\
       disk b = mkDisk (mkPio 0x10008000 4096 None) 0x8 None /\
       on_chip_devices b = [DevClint; DevPlic] /\
       off_chip_devices b = [DevUart; DevDisk]).
Proof.
  intros Hsuper Hreq. unfold RiscvBoard_init. rewrite Hsuper. simpl.
  rewrite Hreq. simpl. split; intros ->.
  - reflexivity.
  - eexists. split; [reflexivity|]. simpl. repeat split.
Qed.

(** A ruby hierarchy is rejected, a classic one is accepted. *)
Lemma ruby_hierarchy_rejected_witness :
  RiscvBoard_init simple_board_init requires_ok hifive_platform id
    "1GHz" [mkCore None] 0x10000000 (mkCache true)
  = Raise (EnvironmentError "RiscvBoard is not compatible with Ruby") /\
  exists b,
    RiscvBoard_init simple_board_init requires_ok hifive_platform id
      "1GHz" [mkCore None] 0x10000000 (mkCache false) = Ok b /\
    on_chip_devices b = [DevClint; DevPlic].
Proof.
  split.
  - apply (proj1 (ruby_hierarchy_rejected simple_board_init requires_ok
                    hifive_platform id "1GHz" [mkCore None] 0x10000000
                    (mkCache true) _ eq_refl eq_refl)).
    reflexivity.
  - destruct (proj2 (ruby_hierarchy_rejected simple_board_init requires_ok
                       hifive_platform id "1GHz" [mkCore None] 0x10000000
                       (mkCache false) _ eq_refl eq_refl) eq_refl)
      as (b & Hb & _ & _ & _ & Hon & _).
    exists b. split; [exact Hb|exact Hon].
Defined.

(** * Further properties *)

(** ** What the tree depends on *)

Lemma cpu_loop_length (node_handle : string -> Z) (freq : Z) (cs : list Core) :
  forall (cs' : list Core) i st cpus_node,
    length cs = length cs' ->
    cpu_loop node_handle freq i cs st cpus_node =
    cpu_loop node_handle freq i cs' st cpus_node.
Proof.
  induction cs as [|c cs IH]; intros [|c' cs'] i st cpus_node Hlen;
    try discriminate Hlen; [reflexivity|].
  simpl. destruct (cpu_node node_handle freq i st) as [[node st1]|e]; simpl;
    [|reflexivity].
  apply IH. now injection Hlen.
Qed.

Lemma int_extended_loop_length ctx_a ctx_b (cs cs' : list Core) i st acc :
  length cs = length cs' ->
  int_extended_loop ctx_a ctx_b i cs st acc =
  int_extended_loop ctx_a ctx_b i cs' st acc.
Proof. intros Hlen. now rewrite !int_extended_loop_spec, Hlen. Qed.

(** The tree is a function of the hardware description alone. *)
Lemma build_device_tree_hardware (node_handle : string -> Z) (b1 b2 : RiscvBoard) :
  hardware b1 = hardware b2 ->
  build_device_tree node_handle b1 = build_device_tree node_handle b2.
Proof.
  unfold hardware.
  intros [= Hmem Hlen Hclk Hca Hcs Hpa Hps Hpn Hpr Hua Hus Hui Hda Hds Hdi].
  unfold build_device_tree, cpus_node_of, soc_node_of, clint_node_of,
    plic_node_of, uart_node_of, disk_node_of.
  rewrite Hmem, Hclk, Hca, Hcs, Hpa, Hps, Hpn, Hpr, Hua, Hus, Hui, Hda, Hds, Hdi.
  rewrite (cpu_loop_length node_handle _ (cores b1) (cores b2)) by exact Hlen.
  destruct (memory_loop _ _ _) as [root|e]; simpl; [|reflexivity].
  destruct (cpu_loop _ _ _ _ _ _) as [[cpus st]|e]; simpl; [|reflexivity].
  destruct (generateBasicPioDeviceNode _ "clint" _ _); simpl; [|reflexivity].
  rewrite (int_extended_loop_length 3 7 (cores b1) (cores b2)) by exact Hlen.
  destruct (int_extended_loop 3 7 _ _ _ _) as [ws soc1]; simpl.
  destruct (generateBasicPioDeviceNode _ "plic" _ _); simpl; [|reflexivity].
  now rewrite (int_extended_loop_length 11 9 (cores b1) (cores b2)) by exact Hlen.
Qed.

Lemma connect_pio_hardware (p : Port) (r : DevRef) (b : RiscvBoard) :
  hardware (connect_pio p r b) = hardware b /\
  on_chip_devices (connect_pio p r b) = on_chip_devices b /\
  off_chip_devices (connect_pio p r b) = off_chip_devices b.
Proof. now destruct r. Qed.

Lemma connect_all_hardware (p : Port) (rs : list DevRef) : forall b,
  hardware (fold_left (fun b r => connect_pio p r b) rs b) = hardware b /\
  on_chip_devices (fold_left (fun b r => connect_pio p r b) rs b)
    = on_chip_devices b /\
  off_chip_devices (fold_left (fun b r => connect_pio p r b) rs b)
    = off_chip_devices b.
Proof.
  induction rs as [|r rs IH]; intros b; simpl; [auto|].
  destruct (IH (connect_pio p r b)) as (-> & -> & ->).
  apply connect_pio_hardware.
Qed.

Lemma _setup_io_devices_hardware (b : RiscvBoard) :
  hardware (_setup_io_devices b) = hardware b /\
  on_chip_devices (_setup_io_devices b) = on_chip_devices b /\
  off_chip_devices (_setup_io_devices b) = off_chip_devices b.
Proof.
  unfold _setup_io_devices.
  destruct (connect_all_hardware IOBusMemSidePorts (off_chip_devices b) b)
    as (H1 & H2 & H3).
  set (b1 := fold_left _ (off_chip_devices b) b) in *.
  destruct (connect_all_hardware CacheMemSidePort (on_chip_devices b1) b1)
    as (H4 & H5 & H6).
  set (b2 := fold_left _ (on_chip_devices b1) b1) in *.
  change (hardware (with_bridge _ b2)) with (hardware b2).
  change (on_chip_devices (with_bridge _ b2)) with (on_chip_devices b2).
  change (off_chip_devices (with_bridge _ b2)) with (off_chip_devices b2).
  repeat split; congruence.
Qed.

Lemma _setup_pma_hardware (b : RiscvBoard) :
  hardware (_setup_pma b) = hardware b.
Proof. unfold hardware, _setup_pma. simpl. now rewrite length_map. Qed.

Lemma staged_board_hardware (bootloader disk_image : AbstractResource)
    (b : RiscvBoard) :
  hardware (staged_board bootloader disk_image b) = hardware b.
Proof.
  unfold staged_board.
  change (hardware (with_workload ?w ?x)) with (hardware x).
  rewrite _setup_pma_hardware.
  now rewrite (proj1 (_setup_io_devices_hardware _)).
Qed.

Lemma set_workload_staged
    (node_handle : string -> Z)
    (to_dts : FdtNode -> result string) (to_dtb : FdtNode -> result (list Z))
    (bootloader disk_image : AbstractResource) (command : option string)
    (outdir : string) (b : RiscvBoard) (fs : FileSystem) :
  set_workload node_handle to_dts to_dtb bootloader disk_image command outdir b fs
  = let b3 := staged_board bootloader disk_image b in
    match generate_device_tree node_handle to_dts to_dtb b3 outdir fs with
    | (fs', Raise e) => (b3, fs', Raise e)
    | (fs', Ok _) =>
        (with_workload (mkWorkload (object_file (workload b3))
                          (command_line (workload b3)) (dtb_addr (workload b3))
                          (Some (path_join outdir "device.dtb"))) b3,
         fs', Ok tt)
    end.
Proof. reflexivity. Qed.

Lemma generate_device_tree_hardware
    (node_handle : string -> Z)
    (to_dts : FdtNode -> result string) (to_dtb : FdtNode -> result (list Z))
    (b1 b2 : RiscvBoard) (outdir : string) (fs : FileSystem) :
  hardware b1 = hardware b2 ->
  generate_device_tree node_handle to_dts to_dtb b1 outdir fs =
  generate_device_tree node_handle to_dts to_dtb b2 outdir fs.
Proof.
  intros H. unfold generate_device_tree.
  now rewrite (build_device_tree_hardware node_handle b1 b2 H).
Qed.

(** ** Binding the devices to their ports *)

Lemma get_device_connect_pio (p : Port) (r r' : DevRef) (b : RiscvBoard) :
  get_device (connect_pio p r b) r' =
  if decide (r = r') then set_pio p (get_device b r') else get_device b r'.
Proof. destruct r, r'; reflexivity. Qed.

Lemma get_device_connect_all (p : Port) (rs : list DevRef) : forall b r',
  get_device (fold_left (fun b r => connect_pio p r b) rs b) r' =
  if decide (r' ∈ rs) then set_pio p (get_device b r') else get_device b r'.
Proof.
  induction rs as [|r rs IH]; intros b r'; simpl.
  - destruct (decide (r' ∈ [])) as [Hin|]; [|reflexivity].
    now apply elem_of_nil in Hin.
  - rewrite IH, get_device_connect_pio.
    repeat case_decide; subst; try reflexivity; exfalso; set_solver.
Qed.

Lemma connect_all_disk_image (p : Port) (rs : list DevRef) : forall b,
  vio_image (disk (fold_left (fun b r => connect_pio p r b) rs b))
    = vio_image (disk b) /\
  interrupt_id (disk (fold_left (fun b r => connect_pio p r b) rs b))
    = interrupt_id (disk b) /\
  cores (fold_left (fun b r => connect_pio p r b) rs b) = cores b.
Proof.
  induction rs as [|r rs IH]; intros b; simpl; [auto|].
  destruct (IH (connect_pio p r b)) as (-> & -> & ->). now destruct r.
Qed.

Lemma _setup_io_devices_effect (b : RiscvBoard) (r : DevRef) :
  pio (get_device (_setup_io_devices b) r) = port_after_setup b r /\
  pio_addr (get_device (_setup_io_devices b) r) = pio_addr (get_device b r) /\
  pio_size (get_device (_setup_io_devices b) r) = pio_size (get_device b r) /\
  bridge (_setup_io_devices b) =
    Some (mkBridge "10ns" IOBusCpuSidePorts CacheMemSidePort
            (map (device_range b) (off_chip_devices b))).
Proof.
  assert (Hdev : forall r',
    get_device (_setup_io_devices b) r' =
    if decide (r' ∈ on_chip_devices b)
    then set_pio CacheMemSidePort
           (if decide (r' ∈ off_chip_devices b)
            then set_pio IOBusMemSidePorts (get_device b r')
            else get_device b r')
    else if decide (r' ∈ off_chip_devices b)
         then set_pio IOBusMemSidePorts (get_device b r')
         else get_device b r').
  { intros r'. unfold _setup_io_devices.
    destruct (connect_all_hardware IOBusMemSidePorts (off_chip_devices b) b)
      as (_ & Hon & _).
    set (b1 := fold_left _ (off_chip_devices b) b) in *.
    change (get_device (with_bridge ?br ?x) r') with (get_device x r').
    rewrite get_device_connect_all, Hon. unfold b1.
    now rewrite get_device_connect_all. }
  assert (Haddr : forall r',
    pio_addr (get_device (_setup_io_devices b) r') = pio_addr (get_device b r') /\
    pio_size (get_device (_setup_io_devices b) r') = pio_size (get_device b r')).
  { intros r'. rewrite Hdev. repeat case_decide; auto. }
  split; [|split; [apply Haddr|split; [apply Haddr|]]].
  - rewrite Hdev. unfold port_after_setup. repeat case_decide; reflexivity.
  - unfold _setup_io_devices.
    destruct (connect_all_hardware IOBusMemSidePorts (off_chip_devices b) b)
      as (_ & Hon & Hoff).
    set (b1 := fold_left _ (off_chip_devices b) b) in *.
    destruct (connect_all_hardware CacheMemSidePort (on_chip_devices b1) b1)
      as (_ & _ & Hoff2).
    set (b2 := fold_left _ (on_chip_devices b1) b1) in *.
    simpl. f_equal. f_equal. rewrite Hoff2, Hoff.
    apply map_ext. intros r'. unfold device_range.
    assert (Hb2 : get_device b2 r' = get_device (_setup_io_devices b) r')
      by reflexivity.
    rewrite Hb2. now destruct (Haddr r') as [-> ->].
Qed.

(** X1. [_setup_io_devices] leaves every device of the on-chip list on the
    memory-side port of the cache hierarchy, every other device of the
    off-chip list on the memory-side ports of the I/O bus, and any device of
    neither list as it was; no base address or size changes, and the bridge
    it installs forwards exactly the ranges of the off-chip devices, in list
    order. *)
Theorem setup_io_devices_ports (b : RiscvBoard) (r : DevRef) :
  pio (get_device (_setup_io_devices b) r) = port_after_setup b r /\
  pio_addr (get_device (_setup_io_devices b) r) = pio_addr (get_device b r) /\
  pio_size (get_device (_setup_io_devices b) r) = pio_size (get_device b r) /\
  bridge (_setup_io_devices b) =
    Some (mkBridge "10ns" IOBusCpuSidePorts CacheMemSidePort
            (map (device_range b) (off_chip_devices b))).
Proof. apply _setup_io_devices_effect. Qed.

Example setup_io_devices_scenario :
  map (fun r => pio (get_device (_setup_io_devices (scenario_board 1 0x10000000)) r))
    [DevClint; DevPlic; DevUart; DevDisk]
  = [ Some CacheMemSidePort; Some CacheMemSidePort;
      Some IOBusMemSidePorts; Some IOBusMemSidePorts ].
Proof. reflexivity. Qed.

(** ** The board after [set_workload] *)

Lemma staged_board_workload (bootloader disk_image : AbstractResource)
    (b : RiscvBoard) :
  workload (staged_board bootloader disk_image b) =
  mkWorkload (Some (get_local_path bootloader))
    (Some "console=ttyS0 root=/dev/vda ro") (Some 0x87E00000)
    (dtb_filename (workload b)).
Proof.
  unfold staged_board. cbn -[_setup_io_devices _setup_pma].
  now rewrite _setup_pma_workload, _setup_io_devices_workload.
Qed.

Lemma _setup_io_devices_disk_image (b : RiscvBoard) :
  vio_image (disk (_setup_io_devices b)) = vio_image (disk b) /\
  cores (_setup_io_devices b) = cores b.
Proof.
  unfold _setup_io_devices.
  destruct (connect_all_disk_image IOBusMemSidePorts (off_chip_devices b) b)
    as (H1 & _ & H2).
  set (b1 := fold_left _ (off_chip_devices b) b) in *.
  destruct (connect_all_disk_image CacheMemSidePort (on_chip_devices b1) b1)
    as (H3 & _ & H4).
  simpl. split; congruence.
Qed.

Lemma staged_board_disk_image (bootloader disk_image : AbstractResource)
    (b : RiscvBoard) :
  vio_image (disk (staged_board bootloader disk_image b)) =
  Some (mkCow false true (Some (get_local_path disk_image))).
Proof.
  unfold staged_board. cbn -[_setup_io_devices _setup_pma].
  change (disk (_setup_pma ?x)) with (disk x).
  now rewrite (proj1 (_setup_io_devices_disk_image _)).
Qed.

Lemma staged_board_devices (bootloader disk_image : AbstractResource)
    (b : RiscvBoard) (r : DevRef) :
  pio (get_device (staged_board bootloader disk_image b) r) = port_after_setup b r /\
  device_range (staged_board bootloader disk_image b) r = device_range b r.
Proof.
  unfold staged_board. cbn -[_setup_io_devices _setup_pma].
  set (b2 := with_workload _ (with_disk _ (with_workload _ b))).
  change (get_device (with_workload ?w (_setup_pma ?x)) r) with (get_device x r).
  unfold device_range.
  change (get_device (with_workload ?w (_setup_pma ?x)) r) with (get_device x r).
  destruct (_setup_io_devices_effect b2 r) as (Hp & Ha & Hs & _).
  rewrite Hp, Ha, Hs. split; [|now destruct r].
  unfold port_after_setup. now destruct r.
Qed.

Lemma staged_board_cores (bootloader disk_image : AbstractResource)
    (b : RiscvBoard) :
  cores (staged_board bootloader disk_image b) =
  map (fun _ => mkCore (Some (map (device_range b)
                                 (on_chip_devices b ++ off_chip_devices b))))
    (cores b).
Proof.
  unfold staged_board. cbn -[_setup_io_devices _setup_pma].
  set (b2 := with_workload _ (with_disk _ (with_workload _ b))).
  change (cores (with_workload ?w ?x)) with (cores x).
  unfold _setup_pma. cbn -[_setup_io_devices].
  destruct (_setup_io_devices_hardware b2) as (_ & -> & ->).
  rewrite (proj2 (_setup_io_devices_disk_image b2)).
  change (cores b2) with (cores b).
  change (on_chip_devices b2) with (on_chip_devices b).
  change (off_chip_devices b2) with (off_chip_devices b).
  assert (Hr : forall l, map (device_range (_setup_io_devices b2)) l
                         = map (device_range b) l).
  { intros l. apply map_ext. intros r. unfold device_range.
    destruct (_setup_io_devices_effect b2 r) as (_ & -> & -> & _).
    now destruct r. }
  now rewrite Hr.
Qed.

Lemma set_workload_result
    (node_handle : string -> Z)
    (to_dts : FdtNode -> result string) (to_dtb : FdtNode -> result (list Z))
    (bootloader disk_image : AbstractResource) (command : option string)
    (outdir : string) (b : RiscvBoard) (fs : FileSystem) :
  set_workload node_handle to_dts to_dtb bootloader disk_image command outdir b fs
  = let g := generate_device_tree node_handle to_dts to_dtb b outdir fs in
    let b3 := staged_board bootloader disk_image b in
    (if is_ok g.2
     then with_workload (mkWorkload (object_file (workload b3))
                           (command_line (workload b3)) (dtb_addr (workload b3))
                           (Some (path_join outdir "device.dtb"))) b3
     else b3, g.1, g.2).
Proof.
  rewrite set_workload_staged. cbv zeta.
  rewrite (generate_device_tree_hardware node_handle to_dts to_dtb _ b outdir fs
             (staged_board_hardware bootloader disk_image b)).
  now destruct (generate_device_tree _ _ _ b outdir fs) as [fs' [[]|e]].
Qed.

Lemma generate_device_tree_ok
    (node_handle : string -> Z)
    (to_dts : FdtNode -> result string) (to_dtb : FdtNode -> result (list Z))
    (b : RiscvBoard) (outdir : string) (fs fs' : FileSystem) (u : unit) :
  generate_device_tree node_handle to_dts to_dtb b outdir fs = (fs', Ok u) ->
  exists root text blob,
    build_device_tree node_handle b = Ok root /\
    to_dts root = Ok text /\ to_dtb root = Ok blob /\
    writable fs (dts_path outdir) = true /\
    writable fs (dtb_path outdir) = true /\
    fs' = mkFS (<[dtb_path outdir := BinaryFile blob]>
                  (<[dts_path outdir := TextFile text]> (files fs)))
               (writable fs).
Proof.
  destruct u.
  unfold generate_device_tree, writeDtsFile, writeDtbFile, write_file.
  fold (dts_path outdir). fold (dtb_path outdir).
  destruct (build_device_tree node_handle b) as [root|e]; [|discriminate].
  destruct (to_dts root) as [text|e] eqn:Hts; [|discriminate].
  destruct (writable fs (dts_path outdir)) eqn:Hw1; [|discriminate].
  simpl. destruct (to_dtb root) as [blob|e] eqn:Htb; [|discriminate].
  destruct (writable fs (dtb_path outdir)) eqn:Hw2; [|discriminate].
  intros [= <-]. exists root, text, blob.
  do 5 (split; [assumption || reflexivity|]). reflexivity.
Qed.

(** X2. The files [set_workload] writes and the exception it raises are
    those of [generate_device_tree] on the board as it was before the call:
    neither the bootloader, the disk image, the port bindings nor the PMA
    checkers set up on the way change the device tree. *)
Theorem set_workload_writes_tree_of_board
    (node_handle : string -> Z)
    (to_dts : FdtNode -> result string) (to_dtb : FdtNode -> result (list Z))
    (bootloader disk_image : AbstractResource) (command : option string)
    (outdir : string) (b : RiscvBoard) (fs : FileSystem) :
  let out := set_workload node_handle to_dts to_dtb bootloader disk_image
               command outdir b fs in
  (out.1.2, out.2) = generate_device_tree node_handle to_dts to_dtb b outdir fs.
Proof.
  intros out. subst out. rewrite set_workload_result. simpl.
  now destruct (generate_device_tree _ _ _ b outdir fs).
Qed.

(** X3. However [set_workload] ends, the board it leaves has the
    bootloader's path as the workload's object file, 0x87E00000 as the DTB
    address, and a writable copy-on-write image over a read-only raw image
    of the disk image's path on the virtio disk.  The workload's DTB file
    name is [device.dtb] of the output directory when the call succeeds, and
    is left as it was when the call raises. *)
Theorem set_workload_configures_workload
    (node_handle : string -> Z)
    (to_dts : FdtNode -> result string) (to_dtb : FdtNode -> result (list Z))
    (bootloader disk_image : AbstractResource) (command : option string)
    (outdir : string) (b : RiscvBoard) (fs : FileSystem) :
  let out := set_workload node_handle to_dts to_dtb bootloader disk_image
               command outdir b fs in
  object_file (workload out.1.1) = Some (get_local_path bootloader) /\
  dtb_addr (workload out.1.1) = Some 0x87E00000 /\
  vio_image (disk out.1.1) =
    Some (mkCow false true (Some (get_local_path disk_image))) /\
  dtb_filename (workload out.1.1) =
    (if is_ok out.2 then Some (path_join outdir "device.dtb")
     else dtb_filename (workload b)).
Proof.
  intros out. subst out. rewrite set_workload_result.
  cbn -[staged_board generate_device_tree is_ok].
  pose proof (staged_board_workload bootloader disk_image b) as Hw.
  pose proof (staged_board_disk_image bootloader disk_image b) as Hd.
  destruct (is_ok (generate_device_tree _ _ _ b outdir fs).2);
    cbn -[staged_board]; rewrite ?Hw, ?Hd;
    (split; [|split; [|split]]); reflexivity.
Qed.

(** X4. However [set_workload] ends, every device of the board's on-chip
    list is bound to the cache hierarchy's port, every other device of its
    off-chip list to the I/O bus, no device range has moved, the number of
    cores is the same, and every core carries a PMA checker whose
    uncacheable ranges are those of the on-chip devices followed by those of
    the off-chip devices. *)
Theorem set_workload_connects_devices
    (node_handle : string -> Z)
    (to_dts : FdtNode -> result string) (to_dtb : FdtNode -> result (list Z))
    (bootloader disk_image : AbstractResource) (command : option string)
    (outdir : string) (b : RiscvBoard) (fs : FileSystem) :
  let out := set_workload node_handle to_dts to_dtb bootloader disk_image
               command outdir b fs in
  (forall r, pio (get_device out.1.1 r) = port_after_setup b r /\
             device_range out.1.1 r = device_range b r) /\
  length (cores out.1.1) = length (cores b) /\
  Forall (fun c => pma_checker c =
                   Some (map (device_range b)
                           (on_chip_devices b ++ off_chip_devices b)))
    (cores out.1.1).
Proof.
  intros out. subst out. rewrite set_workload_result.
  cbn -[staged_board generate_device_tree is_ok].
  set (b3 := staged_board bootloader disk_image b).
  assert (Hdev : forall r, pio (get_device b3 r) = port_after_setup b r /\
                           device_range b3 r = device_range b r)
    by (intros r; apply staged_board_devices).
  assert (Hcores : cores b3 = map (fun _ => mkCore (Some (map (device_range b)
                     (on_chip_devices b ++ off_chip_devices b)))) (cores b))
    by apply staged_board_cores.
  assert (Hall : Forall (fun c => pma_checker c =
                   Some (map (device_range b)
                           (on_chip_devices b ++ off_chip_devices b))) (cores b3)).
  { rewrite Hcores. apply Forall_forall. intros c Hc.
    apply list_elem_of_fmap in Hc as (x & -> & _). reflexivity. }
  assert (Hlen : length (cores b3) = length (cores b))
    by (rewrite Hcores; apply length_map).
  destruct (is_ok (generate_device_tree _ _ _ b outdir fs).2); simpl.
  - split; [|split; [exact Hlen|exact Hall]].
    intros r. destruct (Hdev r) as [Hp Hr]. split.
    + rewrite <- Hp. now destruct r.
    + rewrite <- Hr. unfold device_range. now destruct r.
  - split; [exact Hdev|split; [exact Hlen|exact Hall]].
Qed.

(** X5. When [set_workload] succeeds, the device tree of the board was
    built, and the file the workload's DTB file name points to is in the
    output directory and holds the binary form of that tree; [device.dts]
    holds its text form. *)
Theorem set_workload_dtb_on_disk
    (node_handle : string -> Z)
    (to_dts : FdtNode -> result string) (to_dtb : FdtNode -> result (list Z))
    (bootloader disk_image : AbstractResource) (command : option string)
    (outdir : string) (b b' : RiscvBoard) (fs fs' : FileSystem) :
  set_workload node_handle to_dts to_dtb bootloader disk_image command outdir b fs
    = (b', fs', Ok tt) ->
  exists root text blob name,
    build_device_tree node_handle b = Ok root /\
    to_dts root = Ok text /\ to_dtb root = Ok blob /\
    dtb_filename (workload b') = Some name /\
    files fs' !! name = Some (BinaryFile blob) /\
    files fs' !! path_join outdir "device.dts" = Some (TextFile text).
Proof.
  rewrite set_workload_result. cbv zeta.
  destruct (generate_device_tree _ _ _ b outdir fs) as [fs1 r] eqn:Eg.
  simpl. intros [= Hb Hfs Hr]. subst fs1 r.
  destruct (generate_device_tree_ok _ _ _ _ _ _ _ _ Eg)
    as (root & text & blob & Hroot & Hts & Htb & _ & _ & ->).
  exists root, text, blob, (path_join outdir "device.dtb").
  split; [exact Hroot|]. split; [exact Hts|]. split; [exact Htb|].
  subst b'. simpl. split; [reflexivity|].
  fold (dtb_path outdir). fold (dts_path outdir).
  rewrite lookup_insert_eq, lookup_insert_ne, lookup_insert_eq; auto.
  intros H. now apply (dts_dtb_paths_differ outdir).
Qed.

Lemma set_workload_dtb_on_disk_witness :
  exists b' fs' name,
    set_workload plain_node_handle plain_to_dts plain_to_dtb
      (mkResource "bbl") (mkResource "disk.img") None "out"
      (scenario_board 1 0x10000000) (empty_outdir (fun _ => true))
    = (b', fs', Ok tt) /\
    dtb_filename (workload b') = Some name /\
    files fs' !! name = Some (BinaryFile [0xd0; 0x0d; 0xfe; 0xed]).
Proof.
  eexists _, _, _. 
  assert (Hrun : set_workload plain_node_handle plain_to_dts plain_to_dtb
      (mkResource "bbl") (mkResource "disk.img") None "out"
      (scenario_board 1 0x10000000) (empty_outdir (fun _ => true))
    = ((set_workload plain_node_handle plain_to_dts plain_to_dtb
      (mkResource "bbl") (mkResource "disk.img") None "out"
      (scenario_board 1 0x10000000) (empty_outdir (fun _ => true))).1.1,
       (set_workload plain_node_handle plain_to_dts plain_to_dtb
      (mkResource "bbl") (mkResource "disk.img") None "out"
      (scenario_board 1 0x10000000) (empty_outdir (fun _ => true))).1.2,
       Ok tt)) by (vm_compute; reflexivity).
  split; [exact Hrun|].
  destruct (set_workload_dtb_on_disk _ _ _ _ _ _ _ _ _ _ _ Hrun)
    as (root & text & blob & name & _ & _ & Hblob & Hname & Hfile & _).
  injection Hblob as <-.
  vm_compute in Hname. injection Hname as <-.
  split; [vm_compute; reflexivity|]. vm_compute. reflexivity.
Defined.

(** ** The output directory *)

(** X6. Whatever its outcome, [generate_device_tree] changes no file of the
    output directory other than [device.dts] and [device.dtb], and changes
    no write permission. *)
Theorem generate_device_tree_frame
    (node_handle : string -> Z)
    (to_dts : FdtNode -> result string) (to_dtb : FdtNode -> result (list Z))
    (b : RiscvBoard) (outdir : string) (fs : FileSystem) (path : string) :
  path <> path_join outdir "device.dts" ->
  path <> path_join outdir "device.dtb" ->
  files (generate_device_tree node_handle to_dts to_dtb b outdir fs).1 !! path
    = files fs !! path /\
  writable (generate_device_tree node_handle to_dts to_dtb b outdir fs).1
    = writable fs.
Proof.
  intros Hdts Hdtb.
  unfold generate_device_tree, writeDtsFile, writeDtbFile, write_file.
  destruct (build_device_tree node_handle b) as [root|e]; [|now split].
  destruct (to_dts root) as [text|e]; [|now split].
  destruct (writable fs _) eqn:Hw1; [|now split].
  simpl. destruct (to_dtb root) as [blob|e]; simpl.
  - rewrite Hw1 || idtac.
    destruct (writable fs (path_join outdir "device.dtb")); simpl;
      rewrite ?lookup_insert_ne by congruence; now split.
  - rewrite lookup_insert_ne by congruence. now split.
Qed.

Lemma generate_device_tree_frame_witness :
  files (generate_device_tree plain_node_handle plain_to_dts plain_to_dtb
           (scenario_board 1 0x10000000) "out"
           (mkFS {["out/config.ini" := TextFile "x"]} (fun _ => true))).1
    !! "out/config.ini" = Some (TextFile "x").
Proof.
  rewrite (proj1 (generate_device_tree_frame plain_node_handle plain_to_dts
                    plain_to_dtb (scenario_board 1 0x10000000) "out"
                    (mkFS {["out/config.ini" := TextFile "x"]} (fun _ => true))
                    "out/config.ini" ltac:(discriminate) ltac:(discriminate))).
  reflexivity.
Defined.

(** X7. Generating the device tree of the same board a second time into
    the same directory gives the outcome of the first run and leaves the
    directory as the first run left it: existing [device.dts] and
    [device.dtb] are overwritten with the same content. *)
Theorem generate_device_tree_twice
    (node_handle : string -> Z)
    (to_dts : FdtNode -> result string) (to_dtb : FdtNode -> result (list Z))
    (b : RiscvBoard) (outdir : string) (fs : FileSystem) :
  generate_device_tree node_handle to_dts to_dtb b outdir
    (generate_device_tree node_handle to_dts to_dtb b outdir fs).1
  = generate_device_tree node_handle to_dts to_dtb b outdir fs.
Proof.
  unfold generate_device_tree, writeDtsFile, writeDtbFile, write_file.
  fold (dts_path outdir). fold (dtb_path outdir).
  pose proof (dts_dtb_paths_differ outdir) as Hne.
  destruct (build_device_tree node_handle b) as [root|e]; [|reflexivity].
  destruct (to_dts root) as [text|e] eqn:Hts; simpl; [|reflexivity].
  destruct (writable fs (dts_path outdir)) eqn:Hw1; simpl;
    rewrite ?Hw1; [|reflexivity].
  destruct (to_dtb root) as [blob|e] eqn:Htb; simpl.
  - destruct (writable fs (dtb_path outdir)) eqn:Hw2; simpl;
      rewrite ?Hw1; simpl; rewrite ?Hw2;
      f_equal; f_equal; apply map_eq; intros k;
      rewrite !lookup_insert; repeat case_decide; congruence.
  - rewrite ?Hw1. simpl.
    f_equal. f_equal. apply map_eq. intros k.
    rewrite !lookup_insert. repeat case_decide; congruence.
Qed.

(** ** The shape of the tree *)

Lemma land_mask_small (v : Z) : 0 <= v < 2 ^ 32 -> Z.land v 0xFFFFFFFF = v.
Proof.
  intros Hv. change 0xFFFFFFFF with (Z.ones 32).
  rewrite Z.land_ones by lia. now apply Z.mod_small.
Qed.

Lemma dec_of_N_inj (n m : N) : dec_of_N n = dec_of_N m -> n = m.
Proof.
  unfold dec_of_N. intros H.
  assert (Hnn : forall k, N.to_uint k <> Decimal.Nil).
  { intros [|p]; [discriminate|]. apply Unsigned.to_uint_nonnil. }
  apply DecimalN.Unsigned.to_uint_inj.
  pose proof (DecimalString.NilZero.usu _ (Hnn n)) as Hn.
  pose proof (DecimalString.NilZero.usu _ (Hnn m)) as Hm.
  rewrite H in Hn. congruence.
Qed.

Lemma cpu_key_inj (i j : nat) : cpu_key i = cpu_key j -> i = j.
Proof.
  unfold cpu_key, format_dec. intros H.
  apply (string_app_inv_head "cpu@") in H.
  apply dec_of_N_inj in H. lia.
Qed.

Lemma cpu_names_distinct (n : nat) : NoDup (map cpu_key (seq 0 n)).
Proof.
  apply NoDup_fmap_2; [intros i j; apply cpu_key_inj|apply NoDup_seq].
Qed.

Lemma soc_names_distinct (a b c d : string) :
  NoDup [ "clint" +:+ "@" +:+ a; "plic" +:+ "@" +:+ b;
          "uart" +:+ "@" +:+ c; "virtio_mmio" +:+ "@" +:+ d ].
Proof.
  repeat constructor; simpl; rewrite ?elem_of_cons, ?elem_of_nil;
    intros H; repeat destruct H as [H|H]; try discriminate H; exact H.
Qed.

(** X8. On a board whose quantities fit their cells the [cpus] node has
    exactly one child per core, in ascending core order: child [i] is named
    [cpu@i], has the device type ["cpu"], the one-word [reg] [i], the
    board's clock frequency, the handle the node layer gives [cpu@i], and a
    single child, its [interrupt-controller]. *)
Theorem cpus_children_in_core_order (node_handle : string -> Z) (b : RiscvBoard) :
  board_fits b = true ->
  exists root mems cpus soc,
    build_device_tree node_handle b = Ok root /\
    children root = mems ++ [cpus; soc] /\
    node_name cpus = "cpus" /\
    map node_name (children cpus) = map cpu_key (seq 0 (length (cores b))) /\
    forall i, (i < length (cores b))%nat ->
      exists c,
        children cpus !! i = Some c /\
        node_name c = cpu_key i /\
        find_prop "device_type" c = Some (Strings ["cpu"]) /\
        find_prop "reg" c = Some (Words [Z.of_nat i]) /\
        find_prop "clock-frequency" c = Some (Words [clk_frequency b]) /\
        node_phandle c = Some (node_handle (cpu_key i)) /\
        map node_name (children c) = ["interrupt-controller"].
Proof.
  intros Hfit. rewrite (build_device_tree_fits node_handle b Hfit).
  apply board_fits_spec in Hfit as (_ & Hn & _).
  eexists _, _, (expected_cpus_node node_handle b), _.
  split; [reflexivity|]. split; [reflexivity|]. split; [reflexivity|].
  split.
  - unfold expected_cpus_node. simpl. rewrite map_map. reflexivity.
  - intros i Hi.
    exists (expected_cpu_node (node_handle (cpu_key i)) (clk_frequency b) i).
    split.
    + unfold expected_cpus_node. simpl.
      rewrite list_lookup_fmap, lookup_seq_lt by exact Hi. reflexivity.
    + split; [reflexivity|]. split; [reflexivity|].
      split; [|repeat split].
      unfold find_prop. simpl. now rewrite land_mask_small by lia.
Qed.

Lemma cpus_children_in_core_order_witness :
  exists root mems cpus soc,
    build_device_tree plain_node_handle (scenario_board 3 0x10000000) = Ok root /\
    children root = mems ++ [cpus; soc] /\
    map node_name (children cpus) = ["cpu@0"; "cpu@1"; "cpu@2"].
Proof.
  destruct (cpus_children_in_core_order plain_node_handle
              (scenario_board 3 0x10000000) eq_refl)
    as (root & mems & cpus & soc & Hb & Hch & _ & Hnames & _).
  exists root, mems, cpus, soc. split; [exact Hb|]. split; [exact Hch|].
  exact Hnames.
Defined.

(** X9. On a board whose quantities fit their cells no two children of the
    [cpus] node have the same name, and no two children of the [soc] node
    have the same name, whatever the addresses of the four devices are. *)
Theorem sibling_names_distinct (node_handle : string -> Z) (b : RiscvBoard) :
  board_fits b = true ->
  exists root mems cpus soc,
    build_device_tree node_handle b = Ok root /\
    children root = mems ++ [cpus; soc] /\
    node_name cpus = "cpus" /\ node_name soc = "soc" /\
    NoDup (map node_name (children cpus)) /\
    NoDup (map node_name (children soc)).
Proof.
  intros Hfit. rewrite (build_device_tree_fits node_handle b Hfit).
  eexists _, _, (expected_cpus_node node_handle b), _.
  split; [reflexivity|]. split; [reflexivity|].
  split; [reflexivity|]. split; [reflexivity|]. split.
  - unfold expected_cpus_node. simpl. rewrite map_map. simpl.
    apply cpu_names_distinct.
  - apply soc_names_distinct.
Qed.

Lemma sibling_names_distinct_witness :
  exists root mems cpus soc,
    build_device_tree plain_node_handle (scenario_board 2 0x10000000) = Ok root /\
    children root = mems ++ [cpus; soc] /\
    NoDup (map node_name (children cpus)) /\
    NoDup (map node_name (children soc)).
Proof.
  destruct (sibling_names_distinct plain_node_handle
              (scenario_board 2 0x10000000) eq_refl)
    as (root & mems & cpus & soc & Hb & Hch & _ & _ & H1 & H2).
  exists root, mems, cpus, soc. auto.
Defined.

Lemma forallb_map_all {A B} (f : B -> bool) (g : A -> B) (l : list A) :
  (forall x, f (g x) = true) -> forallb f (map g l) = true.
Proof.
  intros H. induction l as [|x l IH]; simpl; [reflexivity|].
  now rewrite H, IH.
Qed.

(** X10. On a board whose quantities fit their cells, the [reg] property of
    every child of the root, of the [cpus] node and of the [soc] node has as
    many words as its parent declares in [#address-cells] plus
    [#size-cells]: four under the root and [soc], one under [cpus]. *)
Theorem reg_matches_declared_cells (node_handle : string -> Z) (b : RiscvBoard) :
  board_fits b = true ->
  exists root mems cpus soc,
    build_device_tree node_handle b = Ok root /\
    children root = mems ++ [cpus; soc] /\
    node_name cpus = "cpus" /\ node_name soc = "soc" /\
    reg_cells_match root = true /\
    reg_cells_match cpus = true /\
    reg_cells_match soc = true /\
    (prop_word "#address-cells" root, prop_word "#size-cells" root)
      = (Some 2, Some 2) /\
    (prop_word "#address-cells" cpus, prop_word "#size-cells" cpus)
      = (Some 1, Some 0) /\
    (prop_word "#address-cells" soc, prop_word "#size-cells" soc)
      = (Some 2, Some 2).
Proof.
  intros Hfit. rewrite (build_device_tree_fits node_handle b Hfit).
  eexists _, _, (expected_cpus_node node_handle b), _.
  split; [reflexivity|]. split; [reflexivity|].
  split; [reflexivity|]. split; [reflexivity|].
  split; [|split; [|split; [reflexivity|]]].
  - unfold reg_cells_match. simpl. rewrite forallb_app. simpl.
    rewrite forallb_map_all; reflexivity.
  - unfold reg_cells_match. simpl. apply forallb_map_all. reflexivity.
  - split; [reflexivity|]. split; reflexivity.
Qed.

Lemma reg_matches_declared_cells_witness :
  exists root,
    build_device_tree plain_node_handle (scenario_board 2 0x10000000) = Ok root /\
    reg_cells_match root = true.
Proof.
  destruct (reg_matches_declared_cells plain_node_handle
              (scenario_board 2 0x10000000) eq_refl)
    as (root & mems & cpus & soc & Hb & _ & _ & _ & Hr & _).
  exists root. split; [exact Hb|exact Hr].
Defined.

Lemma reg_words_decode (addr size : Z) :
  fits64 addr = true -> fits64 size = true ->
  Forall (fun w => 0 <= w < 2 ^ 32) (reg_words addr size) /\
  decode_cells (take 2 (reg_words addr size)) = addr /\
  decode_cells (drop 2 (reg_words addr size)) = size.
Proof.
  assert (Hhalf : forall v, 0 <= v < 2 ^ 64 ->
            0 <= Z.land (Z.shiftr v 32) 0xFFFFFFFF < 2 ^ 32 /\
            0 <= Z.land v 0xFFFFFFFF < 2 ^ 32 /\
            Z.land (Z.shiftr v 32) 0xFFFFFFFF * 2 ^ 32 + Z.land v 0xFFFFFFFF = v).
  { intros v Hv. change 0xFFFFFFFF with (Z.ones 32).
    rewrite !Z.land_ones, Z.shiftr_div_pow2 by lia.
    assert (Hq : 0 <= v / 2 ^ 32 < 2 ^ 32).
    { split; [apply Z.div_pos; lia|].
      apply Z.div_lt_upper_bound; [lia|]. change (2 ^ 32 * 2 ^ 32) with (2 ^ 64). lia. }
    rewrite (Z.mod_small (v / 2 ^ 32)) by exact Hq.
    pose proof (Z.mod_pos_bound v (2 ^ 32) ltac:(lia)).
    pose proof (Z.div_mod v (2 ^ 32) ltac:(lia)). lia. }
  intros Ha Hs. apply fits64_spec in Ha. apply fits64_spec in Hs.
  destruct (Hhalf addr Ha) as (Ha1 & Ha2 & Ha3).
  destruct (Hhalf size Hs) as (Hs1 & Hs2 & Hs3).
  split; [unfold reg_words; repeat (constructor; [assumption|]); constructor|].
  unfold decode_cells, reg_words. simpl take. simpl drop. simpl fold_left.
  split; lia.
Qed.

(** X11. On a board whose quantities fit their cells every [reg] property
    decodes back to what it was built from: the node of memory range [i]
    holds four 32-bit words, the first two being the start and the last two
    the size, most significant word first; and child [i] of the [soc] node
    holds in the same way the base address and the size of device [i] of
    CLINT, PLIC, UART, disk. *)
Theorem reg_round_trip (node_handle : string -> Z) (b : RiscvBoard) :
  board_fits b = true ->
  exists root mems cpus soc,
    build_device_tree node_handle b = Ok root /\
    children root = mems ++ [cpus; soc] /\
    node_name soc = "soc" /\
    (forall (i : nat) (r : AddrRange),
        mem_ranges b !! i = Some r ->
        exists m ws,
          mems !! i = Some m /\ find_prop "reg" m = Some (Words ws) /\
          length ws = 4%nat /\ Forall (fun w => 0 <= w < 2 ^ 32) ws /\
          decode_cells (take 2 ws) = range_start r /\
          decode_cells (drop 2 ws) = range_size r) /\
    (forall (i : nat) (r : DevRef),
        [DevClint; DevPlic; DevUart; DevDisk] !! i = Some r ->
        exists d ws,
          children soc !! i = Some d /\ find_prop "reg" d = Some (Words ws) /\
          length ws = 4%nat /\ Forall (fun w => 0 <= w < 2 ^ 32) ws /\
          decode_cells (take 2 ws) = pio_addr (get_device b r) /\
          decode_cells (drop 2 ws) = pio_size (get_device b r)).
Proof.
  intros Hfit. rewrite (build_device_tree_fits node_handle b Hfit).
  apply board_fits_spec in Hfit as (Hm & _ & Hc & Hp & Hu & Hd).
  eexists _, (map expected_memory_node (mem_ranges b)), _, _.
  split; [reflexivity|]. split; [reflexivity|]. split; [reflexivity|]. split.
  - intros i r Hi.
    assert (Hr : fits64 (range_start r) && fits64 (range_size r) = true).
    { rewrite forallb_forall in Hm. apply Hm.
      apply list_elem_of_In, list_elem_of_lookup. eauto. }
    apply andb_true_iff in Hr as [Hstart Hsize].
    destruct (reg_words_decode _ _ Hstart Hsize) as (Hw & Hda & Hds).
    eexists (expected_memory_node r), _.
    split; [now rewrite list_lookup_fmap, Hi|].
    split; [reflexivity|]. split; [reflexivity|]. auto.
  - intros i r Hi.
    assert (Hdev : device_fits (get_device b r) = true).
    { destruct i as [|[|[|[|i]]]]; simpl in Hi; try discriminate Hi;
        injection Hi as <-; assumption. }
    apply andb_true_iff in Hdev as [Haddr Hsize].
    destruct (reg_words_decode _ _ Haddr Hsize) as (Hw & Hda & Hds).
    destruct i as [|[|[|[|i]]]]; simpl in Hi; try discriminate Hi;
      injection Hi as <-; eexists _, _;
      (split; [reflexivity|]); (split; [reflexivity|]);
      (split; [reflexivity|]); auto.
Qed.

Lemma reg_round_trip_witness :
  exists root mems cpus soc m ws,
    build_device_tree plain_node_handle (scenario_board 1 0x10000000) = Ok root /\
    children root = mems ++ [cpus; soc] /\
    mems !! 0%nat = Some m /\ find_prop "reg" m = Some (Words ws) /\
    decode_cells (take 2 ws) = 0x80000000 /\
    decode_cells (drop 2 ws) = 0x10000000.
Proof.
  destruct (reg_round_trip plain_node_handle (scenario_board 1 0x10000000) eq_refl)
    as (root & mems & cpus & soc & Hb & Hch & _ & Hmem & _).
  destruct (Hmem 0%nat (mkRange 0x80000000 0x10000000) eq_refl)
    as (m & ws & Hm & Hreg & _ & _ & Ha & Hs).
  exists root, mems, cpus, soc, m, ws. auto 10.
Defined.

(** ** Handles across the tree *)

Lemma phandle_present st key h :
  phandle_table st !! key = Some h -> phandle st key = (h, st).
Proof. intros H. unfold phandle. now rewrite H. Qed.

Lemma phandle_again st key :
  phandle (phandle st key).2 key = ((phandle st key).1, (phandle st key).2).
Proof. apply phandle_present, phandle_lookup. Qed.

Lemma phandle_seq_present keys : forall st,
  (forall k, k ∈ keys -> is_Some (phandle_table st !! k)) ->
  phandle_seq keys st = (map (handle_of st) keys, st).
Proof.
  induction keys as [|k ks IH]; intros st Hall; [reflexivity|].
  destruct (Hall k ltac:(left)) as [h Hk].
  assert (Hh : handle_of st k = h) by (unfold handle_of; now rewrite Hk).
  rewrite phandle_seq_cons, (phandle_present st k h Hk). simpl.
  rewrite IH by (intros k' Hk'; apply Hall; now right).
  now rewrite Hh.
Qed.

Lemma phandle_seq_again keys st :
  phandle_seq keys (phandle_seq keys st).2 =
  ((phandle_seq keys st).1, (phandle_seq keys st).2).
Proof.
  rewrite phandle_seq_present.
  - now rewrite <- phandle_seq_handles.
  - intros k Hk. apply list_elem_of_lookup in Hk as [i Hi].
    destruct (phandle_seq_lookup keys st i k Hi) as [_ ->]. eauto.
Qed.

Lemma cpu_loop_state (node_handle : string -> Z) (freq : Z) (cs : list Core) :
  forall i st cpus_node n st',
    cpu_loop node_handle freq i cs st cpus_node = Ok (n, st') ->
    st' = (phandle_seq (int_state_keys i (length cs)) st).2.
Proof.
  induction cs as [|c cs IH]; intros i st cpus_node n st' H.
  - now injection H as _ <-.
  - simpl in H.
    destruct (cpu_node node_handle freq i st) as [[node st1]|e] eqn:En;
      simpl in H; [|discriminate].
    apply IH in H. subst st'.
    change (int_state_keys i (length (c :: cs)))
      with (int_state_key i :: int_state_keys (S i) (length cs)).
    rewrite phandle_seq_cons. simpl.
    revert En. unfold cpu_node.
    destruct (CPUAddrCells st (Z.of_nat i)); simpl; [|discriminate].
    destruct (phandle st (int_state_key i)) as [h st2]. simpl.
    destruct (phandle (FdtState 0 0 0 1) (int_state_key i)).
    now intros [= _ <-].
Qed.

(** X12. The UART node and the disk node name the same interrupt parent:
    both [interrupt-parent] properties hold the one handle the soc scope
    has for the PLIC, and the request made for the disk allocates nothing
    new. *)
Theorem interrupt_parent_shared
    (b : RiscvBoard) (soc1 soc2 soc3 : CellState) (uart_n disk_n : FdtNode) :
  uart_node_of b soc1 = Ok (uart_n, soc2) ->
  disk_node_of b soc2 = Ok (disk_n, soc3) ->
  exists h,
    find_prop "interrupt-parent" uart_n = Some (Words [h]) /\
    find_prop "interrupt-parent" disk_n = Some (Words [h]) /\
    phandle_table soc3 !! plic_ref (platform b) = Some h /\
    soc3 = soc2.
Proof.
  unfold uart_node_of, disk_node_of. intros Hu Hd.
  destruct (generateBasicPioDeviceNode soc1 "uart" _ _) as [u0|] eqn:Eu;
    simpl in Hu; [|discriminate].
  destruct (generateBasicPioDeviceNode soc2 "virtio_mmio" _ _) as [d0|] eqn:Ed;
    simpl in Hd; [|discriminate].
  apply generateBasicPioDeviceNode_shape in Eu as [wu ->].
  apply generateBasicPioDeviceNode_shape in Ed as [wd ->].
  pose proof (phandle_again soc1 (plic_ref (platform b))) as Hagain.
  pose proof (phandle_lookup soc1 (plic_ref (platform b))) as Hlook.
  destruct (phandle soc1 (plic_ref (platform b))) as [h s2]. simpl in *.
  injection Hu as <- <-. rewrite Hagain in Hd. injection Hd as <- <-.
  exists h. repeat split; auto.
Qed.

Lemma interrupt_parent_shared_witness :
  exists uart_n disk_n soc2 h,
    uart_node_of (scenario_board 2 0x10000000)
      (soc_state_after_clint (scenario_board 2 0x10000000)) = Ok (uart_n, soc2) /\
    find_prop "interrupt-parent" uart_n = Some (Words [h]) /\
    find_prop "interrupt-parent" disk_n = Some (Words [h]).
Proof.
  pose (b := scenario_board 2 0x10000000).
  destruct (soc_state_after_clint_cells b (plic_ref (platform b)))
    as (Ha & Hs & Ha' & Hs').
  pose proof (uart_node_of_fits b (soc_state_after_clint b) Ha Hs eq_refl) as Hu.
  pose proof (disk_node_of_fits b _ Ha' Hs' eq_refl) as Hd.
  destruct (interrupt_parent_shared b _ _ _ _ _ Hu Hd) as (h & H1 & H2 & _).
  eexists _, _, _, h. split; [exact Hu|]. split; [exact H1|exact H2].
Defined.

(** X13. The loop that fills the PLIC's [interrupts-extended] list requests
    the keys the loop over the cores has already requested on the same cell
    state: it allocates no handle (the cell state is unchanged), and the
    handle it lists for core [i] is the one the [cpus] loop obtained for
    [cpu@i.int_state]. *)
Theorem plic_reuses_cpu_handles
    (node_handle : string -> Z) (b : RiscvBoard)
    (state st1 soc st2 : CellState) (cpus plic_n : FdtNode) :
  cpus_node_of node_handle b state = Ok (cpus, st1) ->
  plic_node_of b st1 soc = Ok (plic_n, st2) ->
  st2 = st1 /\
  st1 = (phandle_seq (int_state_keys 0 (length (cores b))) state).2 /\
  exists ws,
    find_prop "interrupts-extended" plic_n = Some (Words ws) /\
    ws = int_extended_words 0xB 0x9
           (phandle_seq (int_state_keys 0 (length (cores b))) state).1.
Proof.
  unfold cpus_node_of, plic_node_of. intros Hc Hp.
  apply cpu_loop_state in Hc. subst st1.
  destruct (generateBasicPioDeviceNode soc "plic" _ _) as [p0|] eqn:Ep;
    simpl in Hp; [|discriminate].
  apply generateBasicPioDeviceNode_shape in Ep as [wp ->].
  rewrite phandle_fresh_state, int_extended_loop_spec in Hp.
  rewrite phandle_seq_again in Hp. simpl in Hp.
  injection Hp as <- <-.
  split; [reflexivity|]. split; [reflexivity|].
  eexists. split; reflexivity.
Qed.

Lemma plic_reuses_cpu_handles_witness :
  exists cpus st1 plic_n,
    cpus_node_of plain_node_handle (scenario_board 2 0x10000000)
      (FdtState 2 2 1 0) = Ok (cpus, st1) /\
    plic_node_of (scenario_board 2 0x10000000) st1
      (soc_state_after_clint (scenario_board 2 0x10000000)) = Ok (plic_n, st1).
Proof.
  pose (b := scenario_board 2 0x10000000).
  pose proof (cpus_node_of_fits plain_node_handle b ltac:(vm_compute; discriminate))
    as Hc.
  destruct (soc_state_after_clint_cells b "") as (Ha & Hs & _).
  pose proof (plic_node_of_fits b (state_after_cpus b) (soc_state_after_clint b)
                Ha Hs eq_refl) as Hp.
  destruct (plic_reuses_cpu_handles plain_node_handle b _ _ _ _ _ _ Hc Hp)
    as (Hst & _).
  eexists _, _, _. split; [exact Hc|]. rewrite Hst in Hp. exact Hp.
Defined.





(** Requests for new, pairwise distinct keys count up from the size of the
    table. *)
Lemma phandle_seq_fresh keys : forall st,
  NoDup keys ->
  (forall k, k ∈ keys -> phandle_table st !! k = None) ->
  (phandle_seq keys st).1 =
  map (fun j => Z.of_nat (size (phandle_table st)) + 1 + Z.of_nat j)
    (seq 0 (length keys)).
Proof.
  induction keys as [|k ks IH]; intros st Hnd Hnew; [reflexivity|].
  apply NoDup_cons in Hnd as [Hk Hnd].
  rewrite phandle_seq_cons. simpl.
  rewrite phandle_fresh by (apply Hnew; now left). f_equal; [lia|].
  rewrite IH; [|exact Hnd|].
  - rewrite <- seq_shift, map_map.
    assert (Hsize : size (phandle_table (phandle st k).2)
                    = S (size (phandle_table st))).
    { unfold phandle. rewrite (Hnew k ltac:(left)). simpl.
      apply map_size_insert_None, Hnew. now left. }
    rewrite Hsize. apply map_ext. intros j. lia.
  - intros k' Hk'. unfold phandle. rewrite (Hnew k ltac:(left)). simpl.
    rewrite lookup_insert_ne; [apply Hnew; now right|].
    intros ->. now apply Hk.
Qed.

(** ** The memory range of the board *)

(** X14. After [setup_memory_ranges] the board has a single memory range,
    at 0x80000000 and of the memory's size, whatever ranges it had before;
    when the quantities fit their cells its device tree has exactly one
    memory node, [memory@80000000], first child of the root, whose [reg]
    holds 0, 0x80000000 and the two halves of the size. *)
Theorem setup_memory_ranges_single_node (node_handle : string -> Z) (b : RiscvBoard) :
  board_fits (setup_memory_ranges b) = true ->
  mem_ranges (setup_memory_ranges b) = [mkRange 0x80000000 (mem_size b)] /\
  exists root cpus soc,
    build_device_tree node_handle (setup_memory_ranges b) = Ok root /\
    node_name cpus = "cpus" /\ node_name soc = "soc" /\
    children root =
      [ mkNode "memory@80000000"
          [ FdtPropertyStrings "device_type" ["memory"];
            FdtPropertyWords "reg"
              [ 0; 0x80000000;
                Z.land (Z.shiftr (mem_size b) 32) 0xFFFFFFFF;
                Z.land (mem_size b) 0xFFFFFFFF ] ]
          [] None;
        cpus; soc ].
Proof.
  intros Hfit. split; [reflexivity|].
  rewrite (build_device_tree_fits node_handle _ Hfit).
  eexists _, (expected_cpus_node node_handle (setup_memory_ranges b)),
    (mkNode "soc" soc_properties
       [ expected_clint_node (setup_memory_ranges b);
         expected_plic_node (setup_memory_ranges b);
         expected_uart_node (setup_memory_ranges b);
         expected_disk_node (setup_memory_ranges b) ] None).
  split; [reflexivity|]. split; [reflexivity|]. split; [reflexivity|].
  reflexivity.
Qed.

Lemma setup_memory_ranges_single_node_witness :
  exists root cpus soc,
    build_device_tree plain_node_handle
      (setup_memory_ranges (scenario_board 1 0x123456789)) = Ok root /\
    children root =
      [ mkNode "memory@80000000"
          [ FdtPropertyStrings "device_type" ["memory"];
            FdtPropertyWords "reg" [0; 0x80000000; 1; 0x23456789] ]
          [] None;
        cpus; soc ].
Proof.
  destruct (setup_memory_ranges_single_node plain_node_handle
              (scenario_board 1 0x123456789) eq_refl)
    as (_ & root & cpus & soc & Hb & _ & _ & Hch).
  exists root, cpus, soc. split; [exact Hb|exact Hch].
Defined.

Lemma build_device_tree_oversized (node_handle : string -> Z) (b : RiscvBoard) :
  2 ^ 64 <= mem_size b ->
  build_device_tree node_handle (setup_memory_ranges b) = Raise EncodingError.
Proof.
  intros Hbig. unfold build_device_tree.
  change (mem_ranges (setup_memory_ranges b))
    with [mkRange 0x80000000 (mem_size b)].
  unfold memory_loop, memory_node, addrCells, sizeCells.
  cbn [range_start range_size addr_cells size_cells FdtState].
  rewrite (int_to_cells_two 0x80000000) by reflexivity.
  rewrite (int_to_cells_overflow (mem_size b) 2) by (simpl; lia).
  reflexivity.
Qed.

(** X15. A memory of 2^64 bytes or more cannot be described: after
    [setup_memory_ranges] the build fails with [EncodingError] before any
    file is written, and [set_workload] then raises the same error, writes
    no file and leaves the workload's DTB file name as it was. *)
Theorem oversized_memory_aborts
    (node_handle : string -> Z)
    (to_dts : FdtNode -> result string) (to_dtb : FdtNode -> result (list Z))
    (bootloader disk_image : AbstractResource) (command : option string)
    (outdir : string) (b : RiscvBoard) (fs : FileSystem) :
  2 ^ 64 <= mem_size b ->
  generate_device_tree node_handle to_dts to_dtb (setup_memory_ranges b) outdir fs
    = (fs, Raise EncodingError) /\
  let out := set_workload node_handle to_dts to_dtb bootloader disk_image
               command outdir (setup_memory_ranges b) fs in
  out.1.2 = fs /\ out.2 = Raise EncodingError /\
  dtb_filename (workload out.1.1) = dtb_filename (workload b).
Proof.
  intros Hbig.
  assert (Hgen : generate_device_tree node_handle to_dts to_dtb
                   (setup_memory_ranges b) outdir fs = (fs, Raise EncodingError)).
  { unfold generate_device_tree.
    now rewrite (build_device_tree_oversized node_handle b Hbig). }
  split; [exact Hgen|]. intros out. subst out.
  rewrite set_workload_result. cbv zeta. rewrite Hgen.
  cbn -[staged_board]. split; [reflexivity|]. split; [reflexivity|].
  now rewrite staged_board_workload.
Qed.

Lemma oversized_memory_aborts_witness :
  generate_device_tree plain_node_handle plain_to_dts plain_to_dtb
    (setup_memory_ranges (scenario_board 1 (2 ^ 64))) "out"
    (empty_outdir (fun _ => true))
  = (empty_outdir (fun _ => true), Raise EncodingError).
Proof.
  assert (Hbig : 2 ^ 64 <= mem_size (scenario_board 1 (2 ^ 64))) by (simpl; lia).
  exact (proj1 (oversized_memory_aborts plain_node_handle plain_to_dts
                  plain_to_dtb (mkResource "bbl") (mkResource "disk.img") None
                  "out" (scenario_board 1 (2 ^ 64))
                  (empty_outdir (fun _ => true)) Hbig)).
Defined.

(** ** The constructor and the methods together *)

(** X16. The constructor runs the superclass constructor, then the ISA
    requirement (for RISC-V), then the Ruby check: an exception of the
    superclass constructor, or of the requirement once the superclass
    constructor has returned, is the constructor's exception, also for a
    Ruby cache hierarchy. *)
Theorem constructor_error_precedence
    (SimpleBoard_init : string -> list Core -> Z -> CacheHierarchy -> result SimpleBoard)
    (requires : ISA -> result unit)
    (HiFive : Platform) (attachPlic : Platform -> Platform)
    (clk_freq : string) (processor : list Core) (memory : Z)
    (cache : CacheHierarchy) (e : exn) :
  (SimpleBoard_init clk_freq processor memory cache = Raise e ->
     RiscvBoard_init SimpleBoard_init requires HiFive attachPlic
       clk_freq processor memory cache = Raise e) /\
  (is_ok (SimpleBoard_init clk_freq processor memory cache) = true ->
   requires RISCV = Raise e ->
     RiscvBoard_init SimpleBoard_init requires HiFive attachPlic
       clk_freq processor memory cache = Raise e).
Proof.
  unfold RiscvBoard_init. split.
  - now intros ->.
  - destruct (SimpleBoard_init clk_freq processor memory cache); [|discriminate].
    intros _ ->. reflexivity.
Qed.

Lemma constructor_error_precedence_witness :
  RiscvBoard_init simple_board_init (fun _ => Raise (OtherError "isa"))
    hifive_platform id "1GHz" [mkCore None] 0x10000000 (mkCache true)
  = Raise (OtherError "isa").
Proof.
  apply (proj2 (constructor_error_precedence simple_board_init
                  (fun _ => Raise (OtherError "isa")) hifive_platform id
                  "1GHz" [mkCore None] 0x10000000 (mkCache true)
                  (OtherError "isa"))); reflexivity.
Defined.

Lemma RiscvBoard_init_ok
    (SimpleBoard_init : string -> list Core -> Z -> CacheHierarchy -> result SimpleBoard)
    (requires : ISA -> result unit)
    (HiFive : Platform) (attachPlic : Platform -> Platform)
    (clk_freq : string) (processor : list Core) (memory : Z)
    (cache : CacheHierarchy) (b : RiscvBoard) :
  RiscvBoard_init SimpleBoard_init requires HiFive attachPlic
    clk_freq processor memory cache = Ok b ->
  exists self,
    SimpleBoard_init clk_freq processor memory cache = Ok self /\
    is_ruby cache = false /\
    cores b = sb_cores self /\ mem_ranges b = sb_mem_ranges self /\
    clk_frequency b = sb_clk_frequency self /\
    disk b = mkDisk (mkPio 0x10008000 4096 None) 0x8 None /\
    on_chip_devices b = [DevClint; DevPlic] /\
    off_chip_devices b = [DevUart; DevDisk] /\
    workload b = mkWorkload None None None None /\
    bridge b = None /\
    clint_num_threads (platform b) = get_num_cores self /\
    clint_int_pin (platform b) = Some RtcIntPin /\
    rtc (platform b) = Some (mkRTC "100MHz").
Proof.
  unfold RiscvBoard_init.
  destruct (SimpleBoard_init clk_freq processor memory cache) as [self|];
    simpl; [|discriminate].
  destruct (requires RISCV) as [[]|]; simpl; [|discriminate].
  destruct (is_ruby cache); [discriminate|].
  intros [= <-]. exists self. simpl. repeat split.
Qed.

Lemma staged_board_bridge (bootloader disk_image : AbstractResource)
    (b : RiscvBoard) :
  bridge (staged_board bootloader disk_image b) =
  Some (mkBridge "10ns" IOBusCpuSidePorts CacheMemSidePort
          (map (device_range b) (off_chip_devices b))).
Proof.
  unfold staged_board. cbn -[_setup_io_devices _setup_pma].
  set (b2 := with_workload _ (with_disk _ (with_workload _ b))).
  change (bridge (_setup_pma ?x)) with (bridge x).
  destruct (_setup_io_devices_effect b2 DevClint) as (_ & _ & _ & ->).
  change (off_chip_devices b2) with (off_chip_devices b).
  assert (Hm : map (device_range b2) (off_chip_devices b)
               = map (device_range b) (off_chip_devices b)).
  { apply map_ext. intros r. unfold device_range. now destruct r. }
  now rewrite Hm.
Qed.

(** X17. A board the constructor has returned has a classic cache
    hierarchy, and [set_workload] wires it in the same way however it ends:
    CLINT and PLIC are on the cache hierarchy's port, UART and disk on the
    I/O bus; the bridge forwards the UART range and the disk range
    (0x10008000, 4096 bytes); and every core's PMA checker marks the ranges
    of CLINT, PLIC, UART and disk uncacheable, in this order. *)
Theorem constructed_board_wiring
    (SimpleBoard_init : string -> list Core -> Z -> CacheHierarchy -> result SimpleBoard)
    (requires : ISA -> result unit)
    (HiFive : Platform) (attachPlic : Platform -> Platform)
    (clk_freq : string) (processor : list Core) (memory : Z)
    (cache : CacheHierarchy)
    (node_handle : string -> Z)
    (to_dts : FdtNode -> result string) (to_dtb : FdtNode -> result (list Z))
    (bootloader disk_image : AbstractResource) (command : option string)
    (outdir : string) (b : RiscvBoard) (fs : FileSystem) :
  RiscvBoard_init SimpleBoard_init requires HiFive attachPlic
    clk_freq processor memory cache = Ok b ->
  let out := set_workload node_handle to_dts to_dtb bootloader disk_image
               command outdir b fs in
  is_ruby cache = false /\
  map (fun r => pio (get_device out.1.1 r)) [DevClint; DevPlic; DevUart; DevDisk]
    = [ Some CacheMemSidePort; Some CacheMemSidePort;
        Some IOBusMemSidePorts; Some IOBusMemSidePorts ] /\
  bridge out.1.1 =
    Some (mkBridge "10ns" IOBusCpuSidePorts CacheMemSidePort
            [device_range b DevUart; mkRange 0x10008000 4096]) /\
  Forall (fun c => pma_checker c =
                   Some [ device_range b DevClint; device_range b DevPlic;
                          device_range b DevUart; mkRange 0x10008000 4096 ])
    (cores out.1.1).
Proof.
  intros Hinit out.
  destruct (RiscvBoard_init_ok _ _ _ _ _ _ _ _ _ Hinit)
    as (self & _ & Hruby & _ & _ & _ & Hdisk & Hon & Hoff & _).
  split; [exact Hruby|].
  assert (Hdr : device_range b DevDisk = mkRange 0x10008000 4096)
    by (unfold device_range; simpl; now rewrite Hdisk).
  subst out. rewrite set_workload_result.
  cbn -[staged_board generate_device_tree is_ok].
  set (b3 := staged_board bootloader disk_image b).
  assert (Hports : map (fun r => pio (get_device b3 r))
                     [DevClint; DevPlic; DevUart; DevDisk]
                   = [ Some CacheMemSidePort; Some CacheMemSidePort;
                       Some IOBusMemSidePorts; Some IOBusMemSidePorts ]).
  { unfold b3. cbn [map].
    rewrite !(proj1 (staged_board_devices bootloader disk_image b _)).
    unfold port_after_setup. rewrite Hon, Hoff. reflexivity. }
  assert (Hbr : bridge b3 = Some (mkBridge "10ns" IOBusCpuSidePorts
                  CacheMemSidePort
                  [device_range b DevUart; mkRange 0x10008000 4096])).
  { unfold b3. rewrite staged_board_bridge, Hoff. simpl. now rewrite Hdr. }
  assert (Hpma : Forall (fun c => pma_checker c =
                   Some [ device_range b DevClint; device_range b DevPlic;
                          device_range b DevUart; mkRange 0x10008000 4096 ])
                   (cores b3)).
  { unfold b3. rewrite staged_board_cores, Hon, Hoff. simpl. rewrite Hdr.
    apply Forall_forall. intros c Hc.
    apply list_elem_of_fmap in Hc as (x & -> & _). reflexivity. }
  destruct (is_ok (generate_device_tree _ _ _ b outdir fs).2);
    (split; [exact Hports|]); (split; [exact Hbr|exact Hpma]).
Qed.

Lemma constructed_board_wiring_witness :
  exists b,
    RiscvBoard_init simple_board_init requires_ok hifive_platform id
      "1GHz" [mkCore None] 0x10000000 (mkCache false) = Ok b /\
    bridge (set_workload plain_node_handle plain_to_dts plain_to_dtb
              (mkResource "bbl") (mkResource "disk.img") None "out" b
              (empty_outdir (fun _ => true))).1.1 =
    Some (mkBridge "10ns" IOBusCpuSidePorts CacheMemSidePort
            [mkRange 0x10000000 0x8; mkRange 0x10008000 4096]).
Proof.
  eexists. split; [reflexivity|].
  refine (proj1 (proj2 (proj2 (constructed_board_wiring simple_board_init
            requires_ok hifive_platform id "1GHz" [mkCore None] 0x10000000
            (mkCache false) plain_node_handle plain_to_dts plain_to_dtb
            (mkResource "bbl") (mkResource "disk.img") None "out" _
            (empty_outdir (fun _ => true)) eq_refl)))).
Defined.

(** X18. The device tree of a board the constructor has returned, when its
    quantities fit their cells, ends with the disk the constructor created:
    the last child of the [soc] node is [virtio_mmio@10008000], with the
    [reg] (0x10008000, 4096), the interrupt 8 and the compatible string
    ["virtio,mmio"]. *)
Theorem constructed_board_disk_node
    (SimpleBoard_init : string -> list Core -> Z -> CacheHierarchy -> result SimpleBoard)
    (requires : ISA -> result unit)
    (HiFive : Platform) (attachPlic : Platform -> Platform)
    (clk_freq : string) (processor : list Core) (memory : Z)
    (cache : CacheHierarchy)
    (node_handle : string -> Z) (b : RiscvBoard) :
  RiscvBoard_init SimpleBoard_init requires HiFive attachPlic
    clk_freq processor memory cache = Ok b ->
  board_fits b = true ->
  exists root soc disk_n,
    build_device_tree node_handle b = Ok root /\
    last (children root) = Some soc /\ node_name soc = "soc" /\
    last (children soc) = Some disk_n /\
    node_name disk_n = "virtio_mmio@10008000" /\
    find_prop "reg" disk_n = Some (Words [0; 0x10008000; 0; 4096]) /\
    find_prop "interrupts" disk_n = Some (Words [0x8]) /\
    find_prop "compatible" disk_n = Some (Strings ["virtio,mmio"]).
Proof.
  intros Hinit Hfit.
  destruct (RiscvBoard_init_ok _ _ _ _ _ _ _ _ _ Hinit)
    as (self & _ & _ & _ & _ & _ & Hdisk & _).
  rewrite (build_device_tree_fits node_handle b Hfit).
  eexists _, _, (expected_disk_node b).
  split; [reflexivity|]. split; [apply last_after_two|].
  split; [reflexivity|]. split; [reflexivity|].
  unfold expected_disk_node, find_prop. rewrite Hdisk. simpl.
  repeat split.
Qed.

Lemma constructed_board_disk_node_witness :
  exists b root soc disk_n,
    RiscvBoard_init simple_board_init requires_ok hifive_platform id
      "1GHz" [mkCore None] 0x10000000 (mkCache false) = Ok b /\
    build_device_tree plain_node_handle b = Ok root /\
    last (children root) = Some soc /\
    last (children soc) = Some disk_n /\
    node_name disk_n = "virtio_mmio@10008000".
Proof.
  destruct (constructed_board_disk_node simple_board_init requires_ok
              hifive_platform id "1GHz" [mkCore None] 0x10000000
              (mkCache false) plain_node_handle _ eq_refl eq_refl)
    as (root & soc & d & Hb & Hs & _ & Hd & Hn & _).
  eexists _, root, soc, d. split; [reflexivity|]. auto.
Defined.

(** * The handles of four cores, and a board without cores *)








